(** * License verification core of apiHub

    A shallow embedding of the request handlers of [server.js] (Express) and
    of the edge function [handleVerify] / [handleReleaseDevice], over a
    finite-map model of the four tables of [database_schema.sql].

    Every [await supabase...] of the source is one round trip to the record
    store.  A handler is therefore modelled as a tree of store operations
    ([Handler]); [run] executes such a tree against a store without
    interruption, and [interleave] executes two of them under a schedule. *)

From Stdlib Require Import ZArith.
From Stdlib Require Strings.Ascii Strings.Byte.
From stdpp Require Import gmap strings option.

Local Open Scope Z_scope.

(** ** Tables *)

(** [CREATE TYPE subscription_status AS ENUM ('free', 'trial', 'premium')]. *)
Inductive subscription_status : Type := free | trial | premium.

#[global] Instance subscription_status_eq_dec : EqDecision subscription_status.
Proof. solve_decision. Defined.

(** Timestamps are JavaScript time values: milliseconds since the epoch. *)
Definition timestamp : Type := Z.

(** Rows carry the columns the handlers read or write, and the keys.  The
    bookkeeping columns [created_at] / [updated_at] (maintained by triggers)
    and the catalogue columns [description], [price] and [duration_days] are
    never read by the handlers modelled here and are left out. *)
Record users_row : Type := {
  full_name : option string;          (* TEXT, nullable *)
  email : string                      (* TEXT NOT NULL *)
}.

Record products_row : Type := {
  name : string;
  is_active : bool;
  trial_enabled : bool
}.

Record api_keys_row : Type := {
  ak_id : string;                     (* PRIMARY KEY *)
  ak_user_id : string;
  ak_product_id : string;
  device_id : option string           (* TEXT, nullable: the bound device *)
}.

Record subscriptions_row : Type := {
  sub_id : string;                    (* PRIMARY KEY *)
  status : subscription_status;
  expires_at : option timestamp;
  trial_used : bool
}.

(** [users] and [products] are keyed by their primary key, [api_keys] by the
    [UNIQUE] column [key_value] and [subscriptions] by the [UNIQUE] pair
    [(user_id, product_id)]; the surrogate [id] of the last two is a field. *)
Record Store : Type := {
  users : gmap string users_row;
  products : gmap string products_row;
  api_keys : gmap string api_keys_row;
  subscriptions : gmap (string * string) subscriptions_row
}.

(** ** JavaScript values *)

(** Truthiness of a value that is a string, [null] or [undefined]. *)
Definition truthy (v : option string) : bool :=
  match v with
  | Some s => negb (String.eqb s "")
  | None => false
  end.

(** The [days] member of the admin request body. *)
Inductive js_value : Type :=
  | js_undefined
  | js_number (n : Z)
  | js_string (s : string).

Definition js_truthy (v : js_value) : bool :=
  match v with
  | js_undefined => false
  | js_number n => negb (n =? 0)
  | js_string s => negb (String.eqb s "")
  end.

(** ** Dates *)

Definition MS_PER_DAY : Z := 1000 * 60 * 60 * 24.

(** Largest magnitude of a valid [Date] time value. *)
Definition MAX_TIME : Z := 8640000000000000.

(** [d.setDate(d.getDate() + n)] for a server whose time zone has a fixed
    offset (such as UTC), where moving [n] calendar days is moving
    [n * 86400000] ms. *)
Definition add_days (now : timestamp) (n : Z) : timestamp := now + n * MS_PER_DAY.

(** [d.setDate(d.getDate() + n); d.toISOString()] for an [n] that comes from
    the request.  Outside the range of [Date] the object becomes an Invalid
    Date and [toISOString] throws a [RangeError]: [None]. *)
Definition setDate_plus (now : timestamp) (n : Z) : option timestamp :=
  if (Z.abs (add_days now n) <=? MAX_TIME) then Some (add_days now n) else None.

(** [Math.ceil(a / b)] for integers [a] and [b > 0].  The source divides
    doubles; for time differences in any realistic range the quotient is
    rounded to the same integer. *)
Definition ceil_div (a b : Z) : Z := - ((- a) / b).

(** [expiresAt - now], where [expiresAt] is a [Date] or [null]; in an
    arithmetic context [null] is [0]. *)
Definition date_minus (expiresAt : option timestamp) (now : timestamp) : Z :=
  match expiresAt with
  | Some e => e - now
  | None => 0 - now
  end.

(** ** Store operations *)

(** What the joined [select] of lines 61-70 returns: every column of the
    [api_keys] row through [*], and for each embedded table the listed
    columns only. *)
Record subscription_view : Type := {
  sv_status : subscription_status;
  sv_expires_at : option timestamp;
  sv_trial_used : bool
}.

Record key_data : Type := {
  kd_id : string;
  kd_device_id : option string;
  kd_users : users_row;
  kd_products : products_row;
  kd_subscriptions : subscription_view
}.

(** [subscription.id] (lines 120 and 144).  The object comes from the embed
    [subscriptions!inner(status, expires_at, trial_used)]: its column list has
    no [id], and reading a property that an object does not have gives
    [undefined].  (The [api_keys] row is selected with [*], so [keyData.id]
    is the row's id.) *)
Definition subscription_id (s : subscription_view) : option string := None.

(** [.from('api_keys').select(...).eq('key_value', k).single()]: the three
    [!inner] embeds drop the row when its user, its product or its
    subscription is missing, and [single()] reports no row as an error. *)
Definition select_api_key (st : Store) (k : string) : option key_data :=
  match api_keys st !! k with
  | None => None
  | Some row =>
      match users st !! ak_user_id row,
            products st !! ak_product_id row,
            subscriptions st !! (ak_user_id row, ak_product_id row) with
      | Some u, Some p, Some s =>
          Some {| kd_id := ak_id row;
                  kd_device_id := device_id row;
                  kd_users := u;
                  kd_products := p;
                  kd_subscriptions :=
                    {| sv_status := status s;
                       sv_expires_at := expires_at s;
                       sv_trial_used := trial_used s |} |}
      | _, _, _ => None
      end
  end.

Definition set_device (d : option string) (row : api_keys_row) : api_keys_row :=
  {| ak_id := ak_id row; ak_user_id := ak_user_id row;
     ak_product_id := ak_product_id row; device_id := d |}.

(** [.from('api_keys').update({ device_id: d }).eq('id', id)]: every row whose
    id is [id] is written; no other column is compared. *)
Definition update_api_keys_eq_id (d : option string) (id : string) (st : Store) : Store :=
  {| users := users st; products := products st;
     api_keys := (λ row, if decide (ak_id row = id) then set_device d row else row)
                   <$> api_keys st;
     subscriptions := subscriptions st |}.

(** [.from('api_keys').update({ device_id: null }).eq('key_value', k)
    .select().single()]: the row written, if there is one. *)
Definition update_api_keys_eq_key_value (k : string) (st : Store)
  : option api_keys_row * Store :=
  match api_keys st !! k with
  | None => (None, st)
  | Some row =>
      (Some (set_device None row),
       {| users := users st; products := products st;
          api_keys := <[k := set_device None row]> (api_keys st);
          subscriptions := subscriptions st |})
  end.

(** The object passed to [.update(...)] on [subscriptions]: a column that is
    not mentioned keeps its value. *)
Record sub_update : Type := {
  set_status : option subscription_status;
  set_expires_at : option (option timestamp);
  set_trial_used : option bool
}.

Definition apply_sub_update (u : sub_update) (row : subscriptions_row) : subscriptions_row :=
  {| sub_id := sub_id row;
     status := default (status row) (set_status u);
     expires_at := default (expires_at row) (set_expires_at u);
     trial_used := default (trial_used row) (set_trial_used u) |}.

(** [.from('subscriptions').update(u).eq('id', v)], where [v] is a row id or
    [undefined] ([None]); no row has the id [undefined]. *)
Definition update_subscriptions_eq_id (u : sub_update) (v : option string) (st : Store) : Store :=
  {| users := users st; products := products st; api_keys := api_keys st;
     subscriptions :=
       (λ row, if decide (Some (sub_id row) = v) then apply_sub_update u row else row)
         <$> subscriptions st |}.

(** [.from('subscriptions').update(u).eq('user_id', uid).eq('product_id', pid)
    .select().single()]. *)
Definition update_subscriptions_eq_user_product
    (u : sub_update) (uid pid : string) (st : Store)
  : option subscriptions_row * Store :=
  match subscriptions st !! (uid, pid) with
  | None => (None, st)
  | Some row =>
      (Some (apply_sub_update u row),
       {| users := users st; products := products st; api_keys := api_keys st;
          subscriptions := <[(uid, pid) := apply_sub_update u row]> (subscriptions st) |})
  end.

(** Values that the database generates while [ensure_subscription] runs:
    [uuid_generate_v4()] for the two primary keys and [generate_api_key()]. *)
Record generated : Type := {
  gen_sub_id : string;
  gen_key_id : string;
  gen_key_value : string
}.

(** The function [ensure_subscription(p_user_id, p_product_id)] together with
    the trigger [on_subscription_created].  [INSERT ... ON CONFLICT DO NOTHING]
    leaves an existing subscription alone.  A violated foreign key, primary
    key or [UNIQUE(key_value)] aborts the statement, and the caller ignores
    the error. *)
Definition ensure_subscription (uid pid : string) (g : generated) (st : Store) : Store :=
  match subscriptions st !! (uid, pid) with
  | Some _ => st
  | None =>
      if bool_decide (is_Some (users st !! uid) ∧ is_Some (products st !! pid)
                      ∧ ¬ map_Exists (λ _ row, sub_id row = gen_sub_id g) (subscriptions st))
      then
        let subs := <[(uid, pid) := {| sub_id := gen_sub_id g; status := free;
                                       expires_at := None; trial_used := false |}]>
                      (subscriptions st) in
        if bool_decide (map_Exists (λ _ row, ak_user_id row = uid ∧ ak_product_id row = pid)
                          (api_keys st))
        then {| users := users st; products := products st;
                api_keys := api_keys st; subscriptions := subs |}
        else if bool_decide (api_keys st !! gen_key_value g = None
                             ∧ ¬ map_Exists (λ _ row, ak_id row = gen_key_id g) (api_keys st))
        then {| users := users st; products := products st;
                api_keys := <[gen_key_value g := {| ak_id := gen_key_id g; ak_user_id := uid;
                                                    ak_product_id := pid; device_id := None |}]>
                              (api_keys st);
                subscriptions := subs |}
        else st
      else st
  end.

Definition status_of_string (s : string) : option subscription_status :=
  if String.eqb s "free" then Some free
  else if String.eqb s "trial" then Some trial
  else if String.eqb s "premium" then Some premium
  else None.

Definition string_of_status (s : subscription_status) : string :=
  match s with free => "free" | trial => "trial" | premium => "premium" end.

(** The admin route sends [status] as the string of the request body; the
    store casts it to the enum and rejects the update when the cast fails. *)
Definition update_subscriptions_admin
    (status' : string) (exp : option (option timestamp)) (uid pid : string) (st : Store)
  : option subscriptions_row * Store :=
  match status_of_string status' with
  | None => (None, st)
  | Some s =>
      update_subscriptions_eq_user_product
        {| set_status := Some s; set_expires_at := exp; set_trial_used := None |} uid pid st
  end.

(** ** Handlers as trees of store operations *)

Inductive Handler (R : Type) : Type :=
  | Reply (r : R)
  | Raise
  | SelectApiKey (k : string) (cont : option key_data → Handler R)
  | UpdateApiKeysEqId (d : option string) (id : string) (cont : Handler R)
  | UpdateApiKeysEqKeyValue (k : string) (cont : option api_keys_row → Handler R)
  | UpdateSubscriptionsEqId (u : sub_update) (v : option string) (cont : Handler R)
  | RpcEnsureSubscription (uid pid : string) (g : generated) (cont : Handler R)
  | UpdateSubscriptionsAdmin (status' : string) (exp : option (option timestamp))
      (uid pid : string) (cont : option subscriptions_row → Handler R).

Arguments Reply {R} r.
Arguments Raise {R}.
Arguments SelectApiKey {R} k cont.
Arguments UpdateApiKeysEqId {R} d id cont.
Arguments UpdateApiKeysEqKeyValue {R} k cont.
Arguments UpdateSubscriptionsEqId {R} u v cont.
Arguments RpcEnsureSubscription {R} uid pid g cont.
Arguments UpdateSubscriptionsAdmin {R} status' exp uid pid cont.


Inductive outcome (R : Type) : Type :=
  | Replied (r : R)
  | Thrown.

Arguments Replied {R} r.
Arguments Thrown {R}.

(** A handler run to completion with no other request in between. *)
Fixpoint run {R} (h : Handler R) (st : Store) : outcome R * Store :=
  match h with
  | Reply r => (Replied r, st)
  | Raise => (Thrown, st)
  | SelectApiKey k cont => run (cont (select_api_key st k)) st
  | UpdateApiKeysEqId d id cont => run cont (update_api_keys_eq_id d id st)
  | UpdateApiKeysEqKeyValue k cont =>
      let '(row, st') := update_api_keys_eq_key_value k st in run (cont row) st'
  | UpdateSubscriptionsEqId u v cont => run cont (update_subscriptions_eq_id u v st)
  | RpcEnsureSubscription uid pid g cont => run cont (ensure_subscription uid pid g st)
  | UpdateSubscriptionsAdmin s exp uid pid cont =>
      let '(row, st') := update_subscriptions_admin s exp uid pid st in run (cont row) st'
  end.


(** ** Responses *)

Inductive json : Type :=
  | JNull
  | JBool (b : bool)
  | JNumber (n : Z)
  | JString (s : string)
  | JTime (t : timestamp).            (* a timestamp, sent as an ISO string *)

#[global] Instance json_eq_dec : EqDecision json.
Proof. solve_decision. Defined.

(** A JSON object: its members in insertion order. *)
Definition object : Type := list (string * json).

Fixpoint field (o : object) (key : string) : option json :=
  match o with
  | [] => None
  | (k, v) :: rest => if String.eqb k key then Some v else field rest key
  end.

(** [o.key = v] for a key that [o] does not have yet. *)
Definition add_field (o : object) (key : string) (v : json) : object := o ++ [(key, v)].

Record Response : Type := {
  http_status : Z;
  body : object
}.

Definition json_of_time (t : option timestamp) : json :=
  match t with Some t => JTime t | None => JNull end.

Definition json_of_device (d : option string) : json :=
  match d with Some d => JString d | None => JNull end.

(** [user.full_name || user.email]. *)
Definition display_name (u : users_row) : string :=
  if truthy (full_name u) then default "" (full_name u) else email u.

Definition ok (o : object) : Response := {| http_status := 200; body := o |}.

(** ** The Express server, [server.js] *)

Module Express.

(** [app.post('/verify', ...)], lines 49-178, inside its [try]. *)
Definition verify_handler (api_key device_id : option string) (now : timestamp)
  : Handler Response :=
  if negb (truthy api_key) || negb (truthy device_id) then
    Reply {| http_status := 400;
             body := [("valid", JBool false);
                      ("error", JString "api_key and device_id are required")] |}
  else
    (* Get API key and related data *)
    SelectApiKey (default "" api_key) (λ keyData,
      match keyData with
      | None => Reply (ok [("valid", JBool false); ("error", JString "Invalid API key")])
      | Some keyData =>
          let user := kd_users keyData in
          let product := kd_products keyData in
          let subscription := kd_subscriptions keyData in
          (* Check if product is active (kill switch) *)
          if negb (is_active product) then
            Reply (ok [("valid", JBool false);
                       ("product", JString (name product));
                       ("active", JBool false);
                       ("message", JString "This product is no longer available.")])
          else
            (* Handle trial logic for free users, then the subscription status *)
            let lifecycle : Handler Response :=
              if bool_decide (sv_status subscription = free) && trial_enabled product
                 && negb (sv_trial_used subscription) then
                (* Start trial *)
                (* the clock reads the present; the day after it is a valid date *)
                let expiresAt := add_days now 1 in
                UpdateSubscriptionsEqId
                  {| set_status := Some trial;
                     set_expires_at := Some (Some expiresAt);
                     set_trial_used := Some true |}
                  (subscription_id subscription)
                  (Reply (ok [("valid", JBool true);
                              ("user", JString (display_name user));
                              ("product", JString (name product));
                              ("status", JString "trial");
                              ("days_left", JNumber 1);
                              ("expires_at", JTime expiresAt);
                              ("device_id", json_of_device device_id);
                              ("message",
                               JString "Trial activated! You have 1 day of premium access.")]))
              else
                (* Check subscription status *)
                let expiresAt := sv_expires_at subscription in
                (* Prepare response based on status *)
                let respond (subscription : subscription_view) : Handler Response :=
                  let response :=
                    [("valid", JBool true);
                     ("user", JString (display_name user));
                     ("product", JString (name product));
                     ("status", JString (string_of_status (sv_status subscription)));
                     ("device_id", json_of_device device_id)] in
                  let response :=
                    if bool_decide (sv_status subscription = premium)
                       || bool_decide (sv_status subscription = trial) then
                      let daysLeft := ceil_div (date_minus expiresAt now) MS_PER_DAY in
                      add_field
                        (add_field response "days_left" (JNumber (Z.max 0 daysLeft)))
                        "expires_at" (json_of_time (sv_expires_at subscription))
                    else response in
                  let response :=
                    if bool_decide (sv_status subscription = free)
                       && negb (trial_enabled product) then
                      add_field response "message"
                        (JString "Trial not available for this product.")
                    else response in
                  Reply (ok response) in
                (* Auto-revert expired subscriptions *)
                if (bool_decide (sv_status subscription = trial)
                    || bool_decide (sv_status subscription = premium))
                   && match expiresAt with Some e => e <? now | None => false end then
                  UpdateSubscriptionsEqId
                    {| set_status := Some free; set_expires_at := Some None;
                       set_trial_used := None |}
                    (subscription_id subscription)
                    (respond {| sv_status := free; sv_expires_at := None;
                                sv_trial_used := sv_trial_used subscription |})
                else respond subscription in
            (* Handle device binding *)
            if negb (truthy (kd_device_id keyData)) then
              (* First use - bind to device *)
              UpdateApiKeysEqId device_id (kd_id keyData) lifecycle
            else if negb (bool_decide (kd_device_id keyData = device_id)) then
              (* Different device *)
              Reply (ok [("valid", JBool false);
                         ("error", JString "API key is bound to a different device");
                         ("message", JString "Use /release-device to unbind this key first.")])
            else lifecycle
      end).

(** The [try] / [catch] of a route: a thrown error becomes the reply
    [on_error]; what was written before the throw stays written. *)
Definition route {R} (h : Handler R) (on_error : R) (st : Store) : R * Store :=
  match run h st with
  | (Replied r, st') => (r, st')
  | (Thrown, st') => (on_error, st')
  end.

Definition verify (api_key device_id : option string) (now : timestamp) (st : Store)
  : Response * Store :=
  route (verify_handler api_key device_id now)
    {| http_status := 500;
       body := [("valid", JBool false); ("error", JString "Internal server error")] |} st.

(** [app.post('/release-device', ...)], lines 181-209. *)
Definition release_device_handler (api_key : option string) : Handler Response :=
  if negb (truthy api_key) then
    Reply {| http_status := 400; body := [("error", JString "api_key is required")] |}
  else
    UpdateApiKeysEqKeyValue (default "" api_key) (λ data,
      match data with
      | None => Reply {| http_status := 404; body := [("error", JString "API key not found")] |}
      | Some _ =>
          Reply (ok [("success", JBool true);
                     ("message", JString "Device binding released successfully")])
      end).

Definition release_device (api_key : option string) (st : Store) : Response * Store :=
  route (release_device_handler api_key)
    {| http_status := 500; body := [("error", JString "Internal server error")] |} st.

(** [app.put('/admin/users/:id/subscription', ...)], lines 320-354, once
    [requireAdmin] has let the request through.  The reply is the updated row,
    or status 500 carrying the message of the error. *)
Inductive admin_reply : Type :=
  | admin_data (row : subscriptions_row)
  | admin_error.

Section Admin.

(** [parseInt]; [None] is [NaN]. *)
Variable parseInt : js_value → option Z.

Definition admin_subscription_handler
    (user_id product_id status' : string) (days : js_value)
    (now : timestamp) (g : generated) : Handler admin_reply :=
  (* Ensure subscription exists first, then update *)
  let send (updateData_expires_at : option (option timestamp)) : Handler admin_reply :=
    RpcEnsureSubscription user_id product_id g
      (UpdateSubscriptionsAdmin status' updateData_expires_at user_id product_id (λ data,
         match data with
         | None => Raise
         | Some row => Reply (admin_data row)
         end)) in
  if String.eqb status' "premium" && js_truthy days then
    match parseInt days with
    | None => Raise                     (* setDate(NaN), then toISOString throws *)
    | Some n =>
        match setDate_plus now n with
        | None => Raise
        | Some expiresAt => send (Some (Some expiresAt))
        end
    end
  else if String.eqb status' "free" then send (Some None)
  else send None.

Definition admin_subscription
    (user_id product_id status' : string) (days : js_value)
    (now : timestamp) (g : generated) (st : Store) : admin_reply * Store :=
  route (admin_subscription_handler user_id product_id status' days now g) admin_error st.

End Admin.

End Express.

(** ** The edge function *)

Module Edge.

(** [handleVerify], as far as an uncaught error. *)
Definition handleVerify (api_key device_id : option string) (now : timestamp)
  : Handler Response :=
  if negb (truthy api_key) || negb (truthy device_id) then
    Reply {| http_status := 400;
             body := [("valid", JBool false);
                      ("error", JString "api_key and device_id are required")] |}
  else
    (* Get API key and related data *)
    SelectApiKey (default "" api_key) (λ keyData,
      match keyData with
      | None => Reply (ok [("valid", JBool false); ("error", JString "Invalid API key")])
      | Some keyData =>
          let user := kd_users keyData in
          let product := kd_products keyData in
          let subscription := kd_subscriptions keyData in
          (* Check if product is active (kill switch) *)
          if negb (is_active product) then
            Reply (ok [("valid", JBool false);
                       ("product", JString (name product));
                       ("active", JBool false);
                       ("message", JString "This product is no longer available.")])
          else
            (* Handle trial logic, then the subscription status *)
            let lifecycle : Handler Response :=
              if bool_decide (sv_status subscription = free) && trial_enabled product
                 && negb (sv_trial_used subscription) then
                (* the clock reads the present; the day after it is a valid date *)
                let expiresAt := add_days now 1 in
                UpdateSubscriptionsEqId
                  {| set_status := Some trial;
                     set_expires_at := Some (Some expiresAt);
                     set_trial_used := Some true |}
                  (subscription_id subscription)
                  (Reply (ok [("valid", JBool true);
                              ("user", JString (display_name user));
                              ("product", JString (name product));
                              ("status", JString "trial");
                              ("days_left", JNumber 1);
                              ("expires_at", JTime expiresAt);
                              ("device_id", json_of_device device_id);
                              ("message",
                               JString "Trial activated! You have 1 day of premium access.")]))
              else
                (* Check subscription status *)
                let expiresAt := sv_expires_at subscription in
                let respond (subscription : subscription_view) : Handler Response :=
                  let response :=
                    [("valid", JBool true);
                     ("user", JString (display_name user));
                     ("product", JString (name product));
                     ("status", JString (string_of_status (sv_status subscription)));
                     ("device_id", json_of_device device_id)] in
                  let message (response : object) : Handler Response :=
                    if bool_decide (sv_status subscription = free)
                       && negb (trial_enabled product) then
                      Reply (ok (add_field response "message"
                                   (JString "Trial not available for this product.")))
                    else Reply (ok response) in
                  if bool_decide (sv_status subscription = premium)
                     || bool_decide (sv_status subscription = trial) then
                    (* [expiresAt!.getTime()]: a [TypeError] when [expiresAt] is null *)
                    match expiresAt with
                    | None => Raise
                    | Some e =>
                        let daysLeft := ceil_div (e - now) MS_PER_DAY in
                        message
                          (add_field
                             (add_field response "days_left" (JNumber (Z.max 0 daysLeft)))
                             "expires_at" (json_of_time (sv_expires_at subscription)))
                    end
                  else message response in
                (* Auto-revert expired subscriptions *)
                if (bool_decide (sv_status subscription = trial)
                    || bool_decide (sv_status subscription = premium))
                   && match expiresAt with Some e => e <? now | None => false end then
                  UpdateSubscriptionsEqId
                    {| set_status := Some free; set_expires_at := Some None;
                       set_trial_used := None |}
                    (subscription_id subscription)
                    (respond {| sv_status := free; sv_expires_at := None;
                                sv_trial_used := sv_trial_used subscription |})
                else respond subscription in
            (* Handle device binding *)
            if negb (truthy (kd_device_id keyData)) then
              UpdateApiKeysEqId device_id (kd_id keyData) lifecycle
            else if negb (bool_decide (kd_device_id keyData = device_id)) then
              Reply (ok [("valid", JBool false);
                         ("error", JString "API key is bound to a different device");
                         ("message", JString "Use /release-device to unbind this key first.")])
            else lifecycle
      end).

(** [handleReleaseDevice]. *)
Definition handleReleaseDevice (api_key : option string) : Handler Response :=
  if negb (truthy api_key) then
    Reply {| http_status := 400; body := [("error", JString "api_key is required")] |}
  else
    UpdateApiKeysEqKeyValue (default "" api_key) (λ data,
      match data with
      | None => Reply {| http_status := 404; body := [("error", JString "API key not found")] |}
      | Some _ =>
          Reply (ok [("success", JBool true);
                     ("message", JString "Device binding released successfully")])
      end).

(** The [try] / [catch] of [serve] around the route handlers. *)
Definition serve (h : Handler Response) (st : Store) : Response * Store :=
  match run h st with
  | (Replied r, st') => (r, st')
  | (Thrown, st') =>
      ({| http_status := 500; body := [("error", JString "Internal server error")] |}, st')
  end.

Definition verify (api_key device_id : option string) (now : timestamp) (st : Store)
  : Response * Store :=
  serve (handleVerify api_key device_id now) st.

Definition release_device (api_key : option string) (st : Store) : Response * Store :=
  serve (handleReleaseDevice api_key) st.

End Edge.

(** ** Invariants and sample data *)



(** The subscription that a token resolves to carries an expiry date whenever
    it is [trial] or [premium] (vacuous when the token does not resolve). *)
Definition resolved_dated (st : Store) (api_key : option string) : bool :=
  match select_api_key st (default "" api_key) with
  | Some keyData =>
      match sv_status (kd_subscriptions keyData) with
      | free => true
      | trial | premium => bool_decide (is_Some (sv_expires_at (kd_subscriptions keyData)))
      end
  | None => true
  end.


(** A store with one user, one product, and one key with its subscription. *)
Definition sample_store (active trial_on : bool) (dev : option string)
    (s : subscription_status) (exp : option timestamp) (used : bool) : Store :=
  {| users := {[ "u1" := {| full_name := Some "Ada"; email := "ada@example.org" |} ]};
     products := {[ "p1" := {| name := "Scraper Pro"; is_active := active;
                               trial_enabled := trial_on |} ]};
     api_keys := {[ "sk_1" := {| ak_id := "k1"; ak_user_id := "u1";
                                 ak_product_id := "p1"; device_id := dev |} ]};
     subscriptions := {[ ("u1", "p1") := {| sub_id := "s1"; status := s;
                                            expires_at := exp; trial_used := used |} ]} |}.

(** [parseInt] on the numbers of the samples. *)
Definition parseInt_sample (v : js_value) : option Z :=
  match v with js_number n => Some n | _ => None end.

Definition sample_generated : generated :=
  {| gen_sub_id := "s2"; gen_key_id := "k2"; gen_key_value := "sk_2" |}.

(** ** The other functions of [database_schema.sql] *)

(** The [WHERE] clause of [revert_expired_subscriptions]:
    [status IN ('trial', 'premium') AND expires_at < NOW()].  A null
    [expires_at] compares as unknown and the row is not selected. *)
Definition expired (now : timestamp) (row : subscriptions_row) : bool :=
  match status row, expires_at row with
  | (trial | premium), Some e => e <? now
  | _, _ => false
  end.

(** [revert_expired_subscriptions()], lines 103-116, run when [NOW()] is
    [now]: the number of rows updated, and the table after the update. *)
Definition revert_expired_subscriptions (now : timestamp) (st : Store) : nat * Store :=
  (size (filter (λ kv, expired now kv.2 = true) (subscriptions st)),
   {| users := users st; products := products st; api_keys := api_keys st;
      subscriptions :=
        (λ row, if expired now row
                then apply_sub_update {| set_status := Some free; set_expires_at := Some None;
                                         set_trial_used := None |} row
                else row) <$> subscriptions st |}).

(** [encode(bytes, 'hex')]: two lower-case hexadecimal digits per byte. *)
Definition hex_digit (n : N) : Ascii.ascii :=
  nth (N.to_nat n) (String.list_ascii_of_string "0123456789abcdef") Ascii.zero.

Definition hex_of_byte (b : Byte.byte) : string :=
  String (hex_digit (Byte.to_N b / 16)) (String (hex_digit (Byte.to_N b mod 16)) EmptyString).

Fixpoint encode_hex (bytes : list Byte.byte) : string :=
  match bytes with
  | [] => EmptyString
  | b :: rest => String.append (hex_of_byte b) (encode_hex rest)
  end.

(** [generate_api_key()], lines 63-68: ['sk_' || encode(gen_random_bytes(32),
    'hex')], as a function of the random bytes drawn. *)
Definition generate_api_key (random_bytes : list Byte.byte) : string :=
  String.append "sk_" (encode_hex random_bytes).

(** The value of a hexadecimal digit, and the bytes that a hexadecimal text
    spells (used to state that [encode_hex] loses nothing). *)
Definition hex_value (c : Ascii.ascii) : option N :=
  match String.index 0 (String c EmptyString) "0123456789abcdef" with
  | Some i => Some (N.of_nat i)
  | None => None
  end.

Fixpoint decode_hex (fuel : nat) (s : string) : option (list Byte.byte) :=
  match fuel, s with
  | _, EmptyString => Some []
  | S fuel, String hi (String lo rest) =>
      match hex_value hi, hex_value lo, decode_hex fuel rest with
      | Some h, Some l, Some bytes =>
          match Byte.of_N (h * 16 + l) with
          | Some b => Some (b :: bytes)
          | None => None
          end
      | _, _, _ => None
      end
  | _, _ => None
  end.


(** [.from('api_keys').update({ device_id: null }).eq('user_id', uid)
    .eq('product_id', pid).select().single()].  [UNIQUE(user_id, product_id)]
    lets at most one row match; when none does, nothing is written and
    [single()] reports an error. *)
Definition update_api_keys_eq_user_product (uid pid : string) (st : Store)
  : option api_keys_row * Store :=
  match map_to_list (filter (λ kv, ak_user_id kv.2 = uid ∧ ak_product_id kv.2 = pid)
                       (api_keys st)) with
  | [(k, row)] =>
      (Some (set_device None row),
       {| users := users st; products := products st;
          api_keys := <[k := set_device None row]> (api_keys st);
          subscriptions := subscriptions st |})
  | _ => (None, st)
  end.

(** ** The admin routes of [server.js] *)

Module ExpressAdmin.

(** [s.replace(pattern, replacement)] with a string pattern: the first
    occurrence only. *)
Definition replace_first (pattern replacement s : string) : string :=
  match String.index 0 pattern s with
  | Some i =>
      String.append (String.substring 0 i s)
        (String.append replacement
           (String.substring (i + String.length pattern)
              (String.length s - (i + String.length pattern)) s))
  | None => s
  end.

Inductive guard : Type :=
  | next (user : string)              (* [req.user = user; next()] *)
  | rejected (r : Response).

Section Guard.

(** [supabase.auth.getUser(token)]: the id of the user the token belongs to,
    or an error. *)
Variable getUser : string → option string.

(** The column [is_admin] of [public.users], by user id (the rows of
    [users_row] do not carry it); a null counts as [false]. *)
Variable is_admin : gmap string bool.

(** [requireAdmin], lines 19-46. *)
Definition requireAdmin (authorization : option string) : guard :=
  let token := replace_first "Bearer " "" <$> authorization in
  if negb (truthy token) then
    rejected {| http_status := 401; body := [("error", JString "No token provided")] |}
  else
    match getUser (default "" token) with
    | None => rejected {| http_status := 401; body := [("error", JString "Invalid token")] |}
    | Some user =>
        match is_admin !! user with
        | Some true => next user
        | _ => rejected {| http_status := 403;
                           body := [("error", JString "Admin access required")] |}
        end
    end.

(** A route behind [requireAdmin]: the handler runs only after [next()]. *)
Definition guarded {R} (authorization : option string) (route : Store → R * Store)
    (st : Store) : (Response + R) * Store :=
  match requireAdmin authorization with
  | rejected r => (inl r, st)
  | next _ => let '(r, st') := route st in (inr r, st')
  end.

End Guard.

(** What the admin routes below send: a JSON body with status 200, or from
    their [catch] status 500 with the message of the error. *)
Inductive reply : Type :=
  | sent (o : object)
  | error_500.

(** [app.post('/admin/users/:id/release-device', ...)], lines 356-374. *)
Definition release_device (user_id product_id : string) (st : Store) : reply * Store :=
  match update_api_keys_eq_user_product user_id product_id st with
  | (None, st') => (error_500, st')
  | (Some _, st') =>
      (sent [("success", JBool true); ("message", JString "Device binding released")], st')
  end.

Section Delete.

(** Whether a text is the text of a UUID; the store rejects a filter on [id]
    with any other text. *)
Variable uuid_syntax : string → bool.


End Delete.

End ExpressAdmin.

(** ** Basic facts *)

Lemma truthy_Some (s : string) : s ≠ "" → truthy (Some s) = true.
Proof.
  intros Hs. unfold truthy. apply negb_true_iff. by apply String.eqb_neq.
Qed.


Lemma store_eq (s1 s2 : Store) :
  users s1 = users s2 → products s1 = products s2 →
  api_keys s1 = api_keys s2 → subscriptions s1 = subscriptions s2 → s1 = s2.
Proof. destruct s1, s2; simpl; intros; by subst. Qed.

(** An update filtered on the id [undefined] writes no row. *)
Lemma update_subscriptions_eq_id_undefined (u : sub_update) (st : Store) :
  update_subscriptions_eq_id u None st = st.
Proof.
  apply store_eq; try done. simpl.
  apply map_eq; intros key. rewrite lookup_fmap.
  by destruct (subscriptions st !! key).
Qed.

Lemma select_api_key_lookup (st : Store) (k : string) (keyData : key_data) :
  select_api_key st k = Some keyData →
  ∃ row, api_keys st !! k = Some row ∧ ak_id row = kd_id keyData
         ∧ device_id row = kd_device_id keyData.
Proof.
  unfold select_api_key. destruct (api_keys st !! k) as [row|]; [|done].
  destruct (users st !! ak_user_id row), (products st !! ak_product_id row),
    (subscriptions st !! (ak_user_id row, ak_product_id row)); try done.
  intros [= <-]. by exists row.
Qed.

Lemma select_api_key_None (st : Store) (k : string) :
  api_keys st !! k = None → select_api_key st k = None.
Proof. intros H. unfold select_api_key. by rewrite H. Qed.

Lemma lookup_update_api_keys_eq_id (d : option string) (id : string) (st : Store) (k : string) :
  api_keys (update_api_keys_eq_id d id st) !! k
  = (λ row, if decide (ak_id row = id) then set_device d row else row) <$> api_keys st !! k.
Proof. simpl. by rewrite lookup_fmap. Qed.

(** The bind leaves the joined view as it was, but for the device. *)
Lemma select_after_bind (st : Store) (k : string) (d : option string) (keyData : key_data) :
  select_api_key st k = Some keyData →
  select_api_key (update_api_keys_eq_id d (kd_id keyData) st) k
  = Some {| kd_id := kd_id keyData; kd_device_id := d; kd_users := kd_users keyData;
            kd_products := kd_products keyData;
            kd_subscriptions := kd_subscriptions keyData |}.
Proof.
  unfold select_api_key. rewrite lookup_update_api_keys_eq_id.
  destruct (api_keys st !! k) as [row|] eqn:Hrow; [|done]. simpl.
  destruct (users st !! ak_user_id row) eqn:Hu, (products st !! ak_product_id row) eqn:Hp,
    (subscriptions st !! (ak_user_id row, ak_product_id row)) eqn:Hs; try done.
  intros [= <-]. simpl. rewrite decide_True by done. simpl.
  by rewrite Hu, Hp, Hs.
Qed.

(** Case analysis of a handler: rewrite the lost subscription writes away. *)
Ltac handler_cases :=
  repeat (simpl in *;
          rewrite ?update_subscriptions_eq_id_undefined in *;
          match goal with
          | |- context [match ?x with _ => _ end] =>
              lazymatch x with
              | context [match _ with _ => _ end] => fail
              | _ => destruct x eqn:?
              end
          | _ => idtac
          end);
  try done.

(** What [verify] writes: the first-use bind, and nothing else. *)
Lemma verify_store (st : Store) (k d : string) (now : timestamp) :
  k ≠ "" → d ≠ "" →
  snd (Express.verify (Some k) (Some d) now st)
  = match select_api_key st k with
    | Some keyData =>
        if is_active (kd_products keyData) && negb (truthy (kd_device_id keyData))
        then update_api_keys_eq_id (Some d) (kd_id keyData) st
        else st
    | None => st
    end.
Proof.
  intros Hk Hd.
  unfold Express.verify, Express.route, Express.verify_handler, subscription_id.
  rewrite (truthy_Some k Hk), (truthy_Some d Hd). simpl.
  destruct (select_api_key st k) as [keyData|]; [|done].
  destruct (is_active (kd_products keyData)); [|done]. simpl.
  destruct (truthy (kd_device_id keyData)); simpl.
  - handler_cases.
  - handler_cases.
Qed.

(** ** Unknown keys, blocked products, release *)

(** C8. A well-formed verify request whose token resolves to no key record is
    answered with status 200 and the payload
    [{ valid: false, error: "Invalid API key" }]; the store is left as it was,
    so that a repeated call gives the same answer and the same store. *)
Theorem verify_unknown_key (st : Store) (k d : string) (now now' : timestamp) :
  k ≠ "" → d ≠ "" →
  select_api_key st k = None →
  Express.verify (Some k) (Some d) now st
  = (ok [("valid", JBool false); ("error", JString "Invalid API key")], st)
  ∧ Express.verify (Some k) (Some d) now' (snd (Express.verify (Some k) (Some d) now st))
    = Express.verify (Some k) (Some d) now st.
Proof.
  intros Hk Hd Hsel.
  assert (∀ t, Express.verify (Some k) (Some d) t st
               = (ok [("valid", JBool false); ("error", JString "Invalid API key")], st))
    as Hreply.
  { intros t. unfold Express.verify, Express.route, Express.verify_handler.
    rewrite (truthy_Some k Hk), (truthy_Some d Hd). simpl. by rewrite Hsel. }
  split; [apply Hreply|].
  rewrite (Hreply now). simpl. apply Hreply.
Qed.

Lemma verify_unknown_key_witness :
  Express.verify (Some "sk_none") (Some "D1") 1000 (sample_store true true None free None false)
  = (ok [("valid", JBool false); ("error", JString "Invalid API key")],
     sample_store true true None free None false)
  ∧ Express.verify (Some "sk_none") (Some "D1") 2000
      (snd (Express.verify (Some "sk_none") (Some "D1") 1000
              (sample_store true true None free None false)))
    = Express.verify (Some "sk_none") (Some "D1") 1000
        (sample_store true true None free None false).
Proof.
  apply (verify_unknown_key (sample_store true true None free None false)
           "sk_none" "D1" 1000 2000); [done | done | reflexivity].
Defined.

(** C5. A well-formed verify request whose product has [is_active = false] is
    answered with the blocked payload carrying the product name, and the store
    is left exactly as it was; in particular a key with no bound device stays
    unbound although a device id was presented. *)
Theorem verify_blocked_product
    (st : Store) (k d : string) (now : timestamp) (keyData : key_data) :
  k ≠ "" → d ≠ "" →
  select_api_key st k = Some keyData →
  is_active (kd_products keyData) = false →
  Express.verify (Some k) (Some d) now st
  = (ok [("valid", JBool false);
         ("product", JString (name (kd_products keyData)));
         ("active", JBool false);
         ("message", JString "This product is no longer available.")], st)
  ∧ (kd_device_id keyData = None →
     device_id <$> api_keys (snd (Express.verify (Some k) (Some d) now st)) !! k = Some None).
Proof.
  intros Hk Hd Hsel Hact.
  assert (Express.verify (Some k) (Some d) now st
          = (ok [("valid", JBool false);
                 ("product", JString (name (kd_products keyData)));
                 ("active", JBool false);
                 ("message", JString "This product is no longer available.")], st))
    as Hreply.
  { unfold Express.verify, Express.route, Express.verify_handler.
    rewrite (truthy_Some k Hk), (truthy_Some d Hd). simpl.
    rewrite Hsel. simpl. by rewrite Hact. }
  split; [done|].
  intros Hdev. rewrite Hreply. simpl.
  destruct (select_api_key_lookup _ _ _ Hsel) as (row & -> & _ & Hrow).
  simpl. by rewrite Hrow, Hdev.
Qed.

Lemma verify_blocked_product_witness :
  Express.verify (Some "sk_1") (Some "D1") 1000 (sample_store false true None free None false)
  = (ok [("valid", JBool false);
         ("product", JString "Scraper Pro");
         ("active", JBool false);
         ("message", JString "This product is no longer available.")],
     sample_store false true None free None false)
  ∧ (@None string = None →
     device_id <$> api_keys (snd (Express.verify (Some "sk_1") (Some "D1") 1000
                                    (sample_store false true None free None false))) !! "sk_1"
     = Some (@None string)).
Proof.
  apply (verify_blocked_product (sample_store false true None free None false) "sk_1" "D1" 1000
           {| kd_id := "k1"; kd_device_id := None;
              kd_users := {| full_name := Some "Ada"; email := "ada@example.org" |};
              kd_products := {| name := "Scraper Pro"; is_active := false;
                                trial_enabled := true |};
              kd_subscriptions := {| sv_status := free; sv_expires_at := None;
                                     sv_trial_used := false |} |});
    [done | done | reflexivity | reflexivity].
Defined.

(** C9. Release-device on a token that names an [api_keys] row clears the
    bound device and reports success; a second release gives the same answer
    and the same store, and releasing a key that is already unbound leaves the
    store as it was.  On a token that names no row it answers 404
    [API key not found] and writes nothing. *)
Theorem release_device_idempotent (st : Store) (k : string) :
  k ≠ "" →
  (∀ row, api_keys st !! k = Some row →
     let success := ok [("success", JBool true);
                        ("message", JString "Device binding released successfully")] in
     let st' := snd (Express.release_device (Some k) st) in
     Express.release_device (Some k) st = (success, st')
     ∧ api_keys st' !! k = Some (set_device None row)
     ∧ Express.release_device (Some k) st' = (success, st')
     ∧ (device_id row = None → st' = st))
  ∧ (api_keys st !! k = None →
     Express.release_device (Some k) st
     = ({| http_status := 404; body := [("error", JString "API key not found")] |}, st)).
Proof.
  intros Hk.
  unfold Express.release_device, Express.route, Express.release_device_handler.
  rewrite (truthy_Some k Hk). simpl. unfold update_api_keys_eq_key_value.
  split.
  - intros row Hrow. rewrite Hrow. simpl.
    split; [done|]. split; [by rewrite lookup_insert_eq|].
    split.
    + rewrite lookup_insert_eq. simpl. by rewrite insert_insert_eq.
    + intros Hdev. apply store_eq; try done. simpl.
      apply insert_id. rewrite Hrow. f_equal. destruct row; simpl in *. by subst.
  - intros Hnone. by rewrite Hnone.
Qed.

Lemma release_device_idempotent_witness :
  let st := sample_store true true (Some "D1") free None false in
  let st' := snd (Express.release_device (Some "sk_1") st) in
  (Express.release_device (Some "sk_1") st
   = (ok [("success", JBool true);
          ("message", JString "Device binding released successfully")], st')
   ∧ device_id <$> api_keys st' !! "sk_1" = Some None
   ∧ Express.release_device (Some "sk_1") st'
     = (ok [("success", JBool true);
            ("message", JString "Device binding released successfully")], st'))
  ∧ Express.release_device (Some "sk_none") st
    = ({| http_status := 404; body := [("error", JString "API key not found")] |}, st).
Proof.
  intros st st'. split.
  - destruct (release_device_idempotent st "sk_1" ltac:(done)) as [Hbound _].
    destruct (Hbound {| ak_id := "k1"; ak_user_id := "u1"; ak_product_id := "p1";
                        device_id := Some "D1" |} ltac:(reflexivity))
      as (H1 & H2 & H3 & _).
    split; [exact H1|]. split; [|exact H3].
    change (device_id <$> api_keys (snd (Express.release_device (Some "sk_1") st)) !! "sk_1"
            = Some None).
    by rewrite H2.
  - destruct (release_device_idempotent st "sk_none" ltac:(done)) as [_ Hnone].
    apply Hnone. reflexivity.
Defined.

(** ** Device binding *)

(** C6. For a key that resolves, has an active product and no bound device, a
    verify with device [d1] binds the key to [d1]; a following verify with a
    different device [d2] is answered with the device-conflict payload
    ([valid: false]) and leaves the whole store, bound device and subscription
    included, as the first call left it. *)
Theorem verify_device_conflict
    (st : Store) (k d1 d2 : string) (now1 now2 : timestamp) (keyData : key_data) :
  k ≠ "" → d1 ≠ "" → d2 ≠ "" → d1 ≠ d2 →
  select_api_key st k = Some keyData →
  is_active (kd_products keyData) = true →
  kd_device_id keyData = None →
  let st1 := snd (Express.verify (Some k) (Some d1) now1 st) in
  device_id <$> api_keys st1 !! k = Some (Some d1)
  ∧ Express.verify (Some k) (Some d2) now2 st1
    = (ok [("valid", JBool false);
           ("error", JString "API key is bound to a different device");
           ("message", JString "Use /release-device to unbind this key first.")], st1).
Proof.
  intros Hk Hd1 Hd2 Hne Hsel Hact Hdev st1.
  assert (st1 = update_api_keys_eq_id (Some d1) (kd_id keyData) st) as ->.
  { unfold st1. rewrite verify_store by done. by rewrite Hsel, Hact, Hdev. }
  split.
  - rewrite lookup_update_api_keys_eq_id.
    destruct (select_api_key_lookup _ _ _ Hsel) as (row & -> & Hid & _).
    simpl. by rewrite decide_True.
  - unfold Express.verify, Express.route, Express.verify_handler.
    rewrite (truthy_Some k Hk), (truthy_Some d2 Hd2). simpl.
    rewrite (select_after_bind _ _ _ _ Hsel).
    cbn [kd_products kd_device_id]. rewrite Hact, (truthy_Some d1 Hd1).
    cbn [negb]. rewrite bool_decide_eq_false_2; [done|]. congruence.
Qed.

Lemma verify_device_conflict_witness :
  let st1 := snd (Express.verify (Some "sk_1") (Some "D1") 1000
                    (sample_store true true None free None false)) in
  device_id <$> api_keys st1 !! "sk_1" = Some (Some "D1")
  ∧ Express.verify (Some "sk_1") (Some "D2") 2000 st1
    = (ok [("valid", JBool false);
           ("error", JString "API key is bound to a different device");
           ("message", JString "Use /release-device to unbind this key first.")], st1).
Proof.
  apply (verify_device_conflict (sample_store true true None free None false)
           "sk_1" "D1" "D2" 1000 2000
           {| kd_id := "k1"; kd_device_id := None;
              kd_users := {| full_name := Some "Ada"; email := "ada@example.org" |};
              kd_products := {| name := "Scraper Pro"; is_active := true;
                                trial_enabled := true |};
              kd_subscriptions := {| sv_status := free; sv_expires_at := None;
                                     sv_trial_used := false |} |});
    [done | done | done | done | reflexivity | reflexivity | reflexivity].
Defined.

(** ** Days left *)




(** ** Express server against edge function *)

(** C10, as stated, fails: on a premium subscription without an expiry date
    the Express route answers 200 with [days_left: 0], while the edge function
    throws at [expiresAt!.getTime()] and [serve] answers 500. *)
Lemma verify_express_edge_differ :
  let st := sample_store true true (Some "D1") premium None true in
  fst (Express.verify (Some "sk_1") (Some "D1") 1000 st)
  = ok [("valid", JBool true); ("user", JString "Ada"); ("product", JString "Scraper Pro");
        ("status", JString "premium"); ("device_id", JString "D1");
        ("days_left", JNumber 0); ("expires_at", JNull)]
  ∧ fst (Edge.verify (Some "sk_1") (Some "D1") 1000 st)
    = {| http_status := 500; body := [("error", JString "Internal server error")] |}
  ∧ Express.verify (Some "sk_1") (Some "D1") 1000 st
    ≠ Edge.verify (Some "sk_1") (Some "D1") 1000 st.
Proof.
  intros st. split; [reflexivity|]. split; [reflexivity|].
  intros H. apply (f_equal (λ r, http_status (fst r))) in H.
  vm_compute in H. discriminate H.
Qed.

(** C10, amended. On every store in which the subscription that the token
    resolves to has an expiry date whenever it is trial or premium, and for
    every [api_key], [device_id] and clock reading, the Express route and the
    edge function give the same reply and leave the same store. *)
Theorem verify_express_edge_agree
    (st : Store) (api_key device_id : option string) (now : timestamp) :
  resolved_dated st api_key = true →
  Express.verify api_key device_id now st = Edge.verify api_key device_id now st.
Proof.
  unfold resolved_dated, Express.verify, Edge.verify, Express.route, Edge.serve,
    Express.verify_handler, Edge.handleVerify, subscription_id.
  destruct (negb (truthy api_key) || negb (truthy device_id)); [done|].
  simpl. destruct (select_api_key st (default "" api_key)) as [keyData|]; [|done].
  destruct keyData as [id dev u p [s exp used]]. simpl.
  intros Hdated.
  destruct (is_active p); [|done]. simpl.
  destruct (truthy dev), (bool_decide (dev = device_id)); simpl; try done;
    destruct s, (trial_enabled p), used; simpl; try done.
  all: destruct exp as [e|]; simpl; try destruct (e <? now); simpl; try done.
  all: by apply bool_decide_eq_true_1, is_Some_None in Hdated.
Qed.

Lemma verify_express_edge_agree_witness :
  let st := sample_store true true (Some "D1") premium (Some 200000000) true in
  Express.verify (Some "sk_1") (Some "D1") 1000 st
  = Edge.verify (Some "sk_1") (Some "D1") 1000 st.
Proof.
  intros st. apply (verify_express_edge_agree st (Some "sk_1") (Some "D1") 1000).
  reflexivity.
Defined.

(** ** Subscription lifecycle *)


(** C1, at a trial-eligible key: the reply announces the trial
    ([status: trial], [days_left: 1], [expires_at] one day after the clock
    reading), but the stored subscription is still free with [trial_used]
    false, and a second verify announces a trial again, one second later. *)
Theorem trial_activation_not_stored :
  let st := sample_store true true None free None false in
  let st1 := snd (Express.verify (Some "sk_1") (Some "D1") 1000 st) in
  fst (Express.verify (Some "sk_1") (Some "D1") 1000 st)
  = ok [("valid", JBool true); ("user", JString "Ada"); ("product", JString "Scraper Pro");
        ("status", JString "trial"); ("days_left", JNumber 1);
        ("expires_at", JTime (1000 + MS_PER_DAY)); ("device_id", JString "D1");
        ("message", JString "Trial activated! You have 1 day of premium access.")]
  ∧ subscriptions st1 !! ("u1", "p1")
    = Some {| sub_id := "s1"; status := free; expires_at := None; trial_used := false |}
  ∧ fst (Express.verify (Some "sk_1") (Some "D1") 2000 st1)
    = ok [("valid", JBool true); ("user", JString "Ada"); ("product", JString "Scraper Pro");
          ("status", JString "trial"); ("days_left", JNumber 1);
          ("expires_at", JTime (2000 + MS_PER_DAY)); ("device_id", JString "D1");
          ("message", JString "Trial activated! You have 1 day of premium access.")].
Proof. intros st st1. repeat split; reflexivity. Qed.

(** C2, at a trial that expired: the reply reports [status: free] and has
    neither [days_left] nor [expires_at], but the stored subscription is still
    the expired trial. *)
Theorem expiry_reversion_not_stored :
  let st := sample_store true true (Some "D1") trial (Some 500) true in
  let reply := fst (Express.verify (Some "sk_1") (Some "D1") 1000 st) in
  reply = ok [("valid", JBool true); ("user", JString "Ada"); ("product", JString "Scraper Pro");
              ("status", JString "free"); ("device_id", JString "D1")]
  ∧ field (body reply) "days_left" = None
  ∧ subscriptions (snd (Express.verify (Some "sk_1") (Some "D1") 1000 st)) !! ("u1", "p1")
    = Some {| sub_id := "s1"; status := trial; expires_at := Some 500; trial_used := true |}.
Proof. intros st reply. repeat split; reflexivity. Qed.

(** ** The invariant on [expires_at] *)







(** ** Writes under concurrency *)




(** ** Further properties of verify *)

Lemma verify_store_cases
    (st : Store) (api_key device_id : option string) (now : timestamp) :
  snd (Express.verify api_key device_id now st) = st
  ∨ ∃ id, snd (Express.verify api_key device_id now st)
          = update_api_keys_eq_id device_id id st.
Proof.
  unfold Express.verify, Express.route, Express.verify_handler, subscription_id.
  destruct (negb (truthy api_key) || negb (truthy device_id)); [by left|].
  simpl. destruct (select_api_key st (default "" api_key)) as [keyData|]; [|by left].
  destruct (is_active (kd_products keyData)); [|by left]. simpl.
  destruct (truthy (kd_device_id keyData)); simpl.
  - left. handler_cases.
  - right. exists (kd_id keyData). handler_cases.
Qed.

(** A request in which [api_key] or [device_id] is missing or empty is
    answered 400 before any lookup and leaves the store as it was, whatever
    the store holds; every other request is answered with status 200. *)
Theorem verify_status_code
    (st : Store) (api_key device_id : option string) (now : timestamp) :
  (truthy api_key && truthy device_id = false →
   Express.verify api_key device_id now st
   = ({| http_status := 400;
         body := [("valid", JBool false);
                  ("error", JString "api_key and device_id are required")] |}, st))
  ∧ (truthy api_key && truthy device_id = true →
     http_status (fst (Express.verify api_key device_id now st)) = 200).
Proof.
  unfold Express.verify, Express.route, Express.verify_handler, subscription_id.
  split; intros Hreq.
  - destruct (truthy api_key), (truthy device_id); try done.
  - destruct (truthy api_key), (truthy device_id); try done. simpl.
    destruct (select_api_key st (default "" api_key)) as [keyData|]; [|done].
    destruct (is_active (kd_products keyData)); [|done]. simpl.
    destruct (truthy (kd_device_id keyData)); simpl; handler_cases.
Qed.

Lemma verify_status_code_witness :
  let st := sample_store true true None free None false in
  Express.verify (Some "sk_1") (Some "") 1000 st
  = ({| http_status := 400;
        body := [("valid", JBool false);
                 ("error", JString "api_key and device_id are required")] |}, st)
  ∧ http_status (fst (Express.verify (Some "sk_1") (Some "D1") 1000 st)) = 200.
Proof.
  intros st. split.
  - apply (verify_status_code st (Some "sk_1") (Some "") 1000). reflexivity.
  - apply (verify_status_code st (Some "sk_1") (Some "D1") 1000). reflexivity.
Defined.

(** Verify writes nothing but the presented device into [api_keys] rows: the
    tables [users], [products] and [subscriptions] are left as they were, no
    key appears or disappears, and a key row is either untouched or differs
    from before in its [device_id] alone, which is then the presented one. *)
Theorem verify_frame
    (st : Store) (api_key device_id : option string) (now : timestamp) (k : string) :
  let st' := snd (Express.verify api_key device_id now st) in
  users st' = users st ∧ products st' = products st
  ∧ subscriptions st' = subscriptions st
  ∧ (api_keys st' !! k = api_keys st !! k
     ∨ ∃ row, api_keys st !! k = Some row
              ∧ api_keys st' !! k = Some (set_device device_id row)).
Proof.
  intros st'. unfold st'.
  destruct (verify_store_cases st api_key device_id now) as [-> | [id ->]].
  - repeat split; try done. by left.
  - repeat split; try done.
    rewrite lookup_update_api_keys_eq_id.
    destruct (api_keys st !! k) as [row|] eqn:Hrow; simpl; [|by left].
    case_decide; [right; by exists row | by left].
Qed.

(** Every reply to verify has a boolean [valid] member, and a reply with
    [valid: false] (bad request, unknown key, blocked product, device
    conflict) comes with no write at all. *)
Theorem verify_invalid_writes_nothing
    (st : Store) (api_key device_id : option string) (now : timestamp) :
  (∃ b, field (body (fst (Express.verify api_key device_id now st))) "valid"
        = Some (JBool b))
  ∧ (field (body (fst (Express.verify api_key device_id now st))) "valid"
     = Some (JBool false) →
     snd (Express.verify api_key device_id now st) = st).
Proof.
  unfold Express.verify, Express.route, Express.verify_handler, subscription_id.
  destruct (negb (truthy api_key) || negb (truthy device_id)); [by eauto|].
  simpl. destruct (select_api_key st (default "" api_key)) as [keyData|]; [|by eauto].
  destruct (is_active (kd_products keyData)); [|by eauto]. simpl.
  destruct (truthy (kd_device_id keyData)); simpl.
  - split; [handler_cases; by eauto|]. handler_cases.
  - split; [handler_cases; by eauto|]. handler_cases.
Qed.

Lemma verify_invalid_writes_nothing_witness :
  let st := sample_store true true (Some "D1") free None false in
  snd (Express.verify (Some "sk_1") (Some "D2") 1000 st) = st.
Proof.
  intros st.
  apply (verify_invalid_writes_nothing st (Some "sk_1") (Some "D2") 1000). reflexivity.
Defined.

Lemma select_after_release (st : Store) (k : string) (keyData : key_data) :
  k ≠ "" →
  select_api_key st k = Some keyData →
  select_api_key (snd (Express.release_device (Some k) st)) k
  = Some {| kd_id := kd_id keyData; kd_device_id := None; kd_users := kd_users keyData;
            kd_products := kd_products keyData;
            kd_subscriptions := kd_subscriptions keyData |}.
Proof.
  intros Hk.
  unfold Express.release_device, Express.route, Express.release_device_handler.
  rewrite (truthy_Some k Hk). simpl.
  unfold update_api_keys_eq_key_value, select_api_key.
  destruct (api_keys st !! k) as [row|] eqn:Hrow; [|done]. simpl.
  rewrite lookup_insert_eq. simpl.
  destruct (users st !! ak_user_id row), (products st !! ak_product_id row),
    (subscriptions st !! (ak_user_id row, ak_product_id row)); try done.
  by intros [= <-].
Qed.

(** Release is the way to another device: whatever device a key was bound
    to, once it is released a verify from any device [d] against an active
    product is answered [valid: true] for [d] and binds the key to [d]. *)
Theorem release_then_rebind
    (st : Store) (k d : string) (now : timestamp) (keyData : key_data) :
  k ≠ "" → d ≠ "" →
  select_api_key st k = Some keyData →
  is_active (kd_products keyData) = true →
  let st1 := snd (Express.release_device (Some k) st) in
  let reply := fst (Express.verify (Some k) (Some d) now st1) in
  field (body reply) "valid" = Some (JBool true)
  ∧ field (body reply) "device_id" = Some (JString d)
  ∧ device_id <$> api_keys (snd (Express.verify (Some k) (Some d) now st1)) !! k
    = Some (Some d).
Proof.
  intros Hk Hd Hsel Hact st1 reply.
  pose proof (select_after_release st k keyData Hk Hsel) as Hsel1. fold st1 in Hsel1.
  split; [|split].
  - unfold reply, Express.verify, Express.route, Express.verify_handler, subscription_id.
    rewrite (truthy_Some k Hk), (truthy_Some d Hd). simpl.
    rewrite Hsel1. simpl. rewrite Hact. simpl. handler_cases.
  - unfold reply, Express.verify, Express.route, Express.verify_handler, subscription_id.
    rewrite (truthy_Some k Hk), (truthy_Some d Hd). simpl.
    rewrite Hsel1. simpl. rewrite Hact. simpl. handler_cases.
  - rewrite verify_store by done. rewrite Hsel1.
    cbn [kd_products kd_device_id kd_id truthy negb]. rewrite Hact.
    cbn [andb]. rewrite lookup_update_api_keys_eq_id.
    destruct (select_api_key_lookup _ _ _ Hsel1) as (row & -> & Hid & _).
    simpl in *. by rewrite decide_True.
Qed.

Lemma release_then_rebind_witness :
  let st := sample_store true false (Some "D1") free None true in
  let st1 := snd (Express.release_device (Some "sk_1") st) in
  let reply := fst (Express.verify (Some "sk_1") (Some "D2") 1000 st1) in
  field (body reply) "valid" = Some (JBool true)
  ∧ field (body reply) "device_id" = Some (JString "D2")
  ∧ device_id <$> api_keys (snd (Express.verify (Some "sk_1") (Some "D2") 1000 st1)) !! "sk_1"
    = Some (Some "D2").
Proof.
  apply (release_then_rebind (sample_store true false (Some "D1") free None true)
           "sk_1" "D2" 1000
           {| kd_id := "k1"; kd_device_id := Some "D1";
              kd_users := {| full_name := Some "Ada"; email := "ada@example.org" |};
              kd_products := {| name := "Scraper Pro"; is_active := true;
                                trial_enabled := false |};
              kd_subscriptions := {| sv_status := free; sv_expires_at := None;
                                     sv_trial_used := true |} |});
    [done | done | reflexivity | reflexivity].
Defined.




(** A free subscription that cannot start a trial (the product offers none,
    or the trial was used) is reported as free with neither [days_left] nor
    [expires_at], nothing is written, and the reply carries the message
    [Trial not available for this product.] exactly when the product offers
    no trial. *)
Theorem verify_free_steady
    (st : Store) (k d : string) (now : timestamp) (keyData : key_data) :
  k ≠ "" → d ≠ "" →
  select_api_key st k = Some keyData →
  is_active (kd_products keyData) = true →
  kd_device_id keyData = Some d →
  sv_status (kd_subscriptions keyData) = free →
  trial_enabled (kd_products keyData) = false
  ∨ sv_trial_used (kd_subscriptions keyData) = true →
  Express.verify (Some k) (Some d) now st
  = (ok ([("valid", JBool true);
          ("user", JString (display_name (kd_users keyData)));
          ("product", JString (name (kd_products keyData)));
          ("status", JString "free");
          ("device_id", JString d)]
         ++ if trial_enabled (kd_products keyData) then []
            else [("message", JString "Trial not available for this product.")]), st).
Proof.
  intros Hk Hd Hsel Hact Hdev Hfree Hno.
  unfold Express.verify, Express.route, Express.verify_handler, subscription_id.
  rewrite (truthy_Some k Hk), (truthy_Some d Hd). simpl.
  rewrite Hsel. simpl. rewrite Hact, Hdev, (truthy_Some d Hd). simpl.
  rewrite bool_decide_eq_true_2 by done. simpl.
  rewrite Hfree. simpl.
  destruct Hno as [-> | ->]; simpl; [done|].
  rewrite andb_false_r. by destruct (trial_enabled (kd_products keyData)).
Qed.

Lemma verify_free_steady_witness :
  let st := sample_store true false (Some "D1") free None false in
  Express.verify (Some "sk_1") (Some "D1") 1000 st
  = (ok [("valid", JBool true); ("user", JString "Ada"); ("product", JString "Scraper Pro");
         ("status", JString "free"); ("device_id", JString "D1");
         ("message", JString "Trial not available for this product.")], st).
Proof.
  apply (verify_free_steady (sample_store true false (Some "D1") free None false)
           "sk_1" "D1" 1000
           {| kd_id := "k1"; kd_device_id := Some "D1";
              kd_users := {| full_name := Some "Ada"; email := "ada@example.org" |};
              kd_products := {| name := "Scraper Pro"; is_active := true;
                                trial_enabled := false |};
              kd_subscriptions := {| sv_status := free; sv_expires_at := None;
                                     sv_trial_used := false |} |});
    [done | done | reflexivity | reflexivity | reflexivity | reflexivity
    | left; reflexivity].
Defined.

(** ** Further properties of the edge function *)

(** Release-device of the edge function and of the Express server give the
    same reply and the same store on every input, a missing or empty
    [api_key] included. *)
Theorem release_device_edge_express (st : Store) (api_key : option string) :
  Edge.release_device api_key st = Express.release_device api_key st.
Proof.
  unfold Edge.release_device, Express.release_device, Edge.serve, Express.route,
    Edge.handleReleaseDevice, Express.release_device_handler.
  destruct (negb (truthy api_key)); [done|]. simpl.
  destruct (update_api_keys_eq_key_value (default "" api_key) st) as [[row|] st']; done.
Qed.

(** An error reply of the edge function can follow a write.  On the first
    use of a key whose subscription is trial or premium without an expiry
    date, [handleVerify] binds the device and then throws, so the caller is
    answered 500 and the key is bound all the same.  And whenever the edge
    function answers verify with 500, the resolved subscription is of that
    kind. *)
Theorem edge_verify_error_after_bind
    (st : Store) (k d : string) (now : timestamp) (keyData : key_data) :
  k ≠ "" → d ≠ "" →
  (select_api_key st k = Some keyData →
   is_active (kd_products keyData) = true →
   truthy (kd_device_id keyData) = false →
   sv_status (kd_subscriptions keyData) ≠ free →
   sv_expires_at (kd_subscriptions keyData) = None →
   Edge.verify (Some k) (Some d) now st
   = ({| http_status := 500; body := [("error", JString "Internal server error")] |},
      update_api_keys_eq_id (Some d) (kd_id keyData) st)
   ∧ device_id <$> api_keys (snd (Edge.verify (Some k) (Some d) now st)) !! k
     = Some (Some d))
  ∧ (http_status (fst (Edge.verify (Some k) (Some d) now st)) = 500 →
     resolved_dated st (Some k) = false).
Proof.
  intros Hk Hd. split.
  - intros Hsel Hact Hdev Hs He.
    assert (Edge.verify (Some k) (Some d) now st
            = ({| http_status := 500;
                  body := [("error", JString "Internal server error")] |},
               update_api_keys_eq_id (Some d) (kd_id keyData) st)) as Hreply.
    { unfold Edge.verify, Edge.serve, Edge.handleVerify, subscription_id.
      rewrite (truthy_Some k Hk), (truthy_Some d Hd). simpl.
      rewrite Hsel. simpl. rewrite Hact, Hdev. simpl. rewrite He.
      destruct (sv_status (kd_subscriptions keyData)); [done| |]; simpl;
        rewrite ?andb_false_r; done. }
    split; [done|]. rewrite Hreply. cbn [snd].
    rewrite lookup_update_api_keys_eq_id.
    destruct (select_api_key_lookup _ _ _ Hsel) as (row & -> & Hid & _).
    simpl. by rewrite decide_True.
  - unfold resolved_dated, Edge.verify, Edge.serve, Edge.handleVerify, subscription_id.
    rewrite (truthy_Some k Hk), (truthy_Some d Hd). simpl.
    destruct (select_api_key st k) as [[id dev u p [s exp used]]|]; [|done]. simpl.
    destruct (is_active p); [|done]. simpl.
    destruct (truthy dev), (bool_decide (dev = Some d)); simpl; try done;
      destruct s, (trial_enabled p), used; simpl; try done.
    all: destruct exp as [e|]; simpl; try destruct (e <? now); simpl; done.
Qed.

Lemma edge_verify_error_after_bind_witness :
  let st := sample_store true true None premium None true in
  Edge.verify (Some "sk_1") (Some "D1") 1000 st
  = ({| http_status := 500; body := [("error", JString "Internal server error")] |},
     update_api_keys_eq_id (Some "D1") "k1" st)
  ∧ device_id <$> api_keys (snd (Edge.verify (Some "sk_1") (Some "D1") 1000 st)) !! "sk_1"
    = Some (Some "D1").
Proof.
  intros st.
  destruct (edge_verify_error_after_bind st "sk_1" "D1" 1000
              {| kd_id := "k1"; kd_device_id := None;
                 kd_users := {| full_name := Some "Ada"; email := "ada@example.org" |};
                 kd_products := {| name := "Scraper Pro"; is_active := true;
                                   trial_enabled := true |};
                 kd_subscriptions := {| sv_status := premium; sv_expires_at := None;
                                        sv_trial_used := true |} |}
              ltac:(done) ltac:(done)) as [Hbind _].
  apply Hbind; [reflexivity | reflexivity | reflexivity | done | reflexivity].
Defined.

(** ** Further properties of the admin subscription route *)



(** A [days] value that is truthy but is no usable number (one that
    [parseInt] reads as [NaN], or one that moves the date out of the range of
    [Date]) makes the route fail with status 500 before it calls the store:
    no subscription is created and none is changed. *)
Theorem admin_bad_days
    (parseInt : js_value → option Z) (st : Store) (user_id product_id : string)
    (days : js_value) (now : timestamp) (g : generated) :
  js_truthy days = true →
  parseInt days = None
  ∨ (∃ n, parseInt days = Some n ∧ MAX_TIME < Z.abs (add_days now n)) →
  Express.admin_subscription parseInt user_id product_id "premium" days now g st
  = (Express.admin_error, st).
Proof.
  intros Hdays Hbad.
  unfold Express.admin_subscription, Express.route, Express.admin_subscription_handler.
  simpl. rewrite Hdays.
  destruct Hbad as [-> | (n & -> & Hrange)]; [done|].
  unfold setDate_plus. by rewrite (proj2 (Z.leb_gt _ _) Hrange).
Qed.

Lemma admin_bad_days_witness :
  let st := sample_store true true None free None false in
  Express.admin_subscription parseInt_sample "u1" "p1" "premium" (js_string "soon")
    1000 sample_generated st
  = (Express.admin_error, st)
  ∧ Express.admin_subscription parseInt_sample "u1" "p1" "premium"
      (js_number 200000000000) 1000 sample_generated st
    = (Express.admin_error, st).
Proof.
  intros st. split.
  - apply (admin_bad_days parseInt_sample st "u1" "p1" (js_string "soon") 1000
             sample_generated); [reflexivity | left; reflexivity].
  - apply (admin_bad_days parseInt_sample st "u1" "p1" (js_number 200000000000) 1000
             sample_generated); [reflexivity | right].
    exists 200000000000. split; [reflexivity | reflexivity].
Defined.

(** A [status] that is none of the three enum values makes the update fail
    and the route answer 500, but only after [ensure_subscription] has run:
    the store that is left is the one [ensure_subscription] produced, which
    may hold a subscription and a key that did not exist before. *)
Theorem admin_invalid_status
    (parseInt : js_value → option Z) (st : Store) (user_id product_id status' : string)
    (days : js_value) (now : timestamp) (g : generated) :
  status_of_string status' = None →
  Express.admin_subscription parseInt user_id product_id status' days now g st
  = (Express.admin_error, ensure_subscription user_id product_id g st).
Proof.
  intros Hstatus.
  unfold Express.admin_subscription, Express.route, Express.admin_subscription_handler.
  unfold status_of_string in Hstatus.
  destruct (String.eqb status' "free") eqn:Hfree; [done|].
  destruct (String.eqb status' "trial") eqn:Htrial; [done|].
  destruct (String.eqb status' "premium") eqn:Hpremium; [done|].
  simpl. unfold update_subscriptions_admin, status_of_string.
  by rewrite Hfree, Htrial, Hpremium.
Qed.

Lemma admin_invalid_status_witness :
  let st := sample_store true true None free None false in
  Express.admin_subscription parseInt_sample "u1" "p1" "gold" js_undefined 1000
    sample_generated st
  = (Express.admin_error, ensure_subscription "u1" "p1" sample_generated st).
Proof.
  intros st.
  apply (admin_invalid_status parseInt_sample st "u1" "p1" "gold" js_undefined 1000
           sample_generated).
  reflexivity.
Defined.



Lemma ensure_subscription_frame (uid pid : string) (g : generated) (st : Store) :
  let st' := ensure_subscription uid pid g st in
  users st' = users st ∧ products st' = products st
  ∧ (∀ key, key ≠ (uid, pid) → subscriptions st' !! key = subscriptions st !! key)
  ∧ (∀ s, subscriptions st !! (uid, pid) = Some s → subscriptions st' !! (uid, pid) = Some s)
  ∧ (∀ k row, api_keys st !! k = Some row → api_keys st' !! k = Some row).
Proof.
  unfold ensure_subscription.
  destruct (subscriptions st !! (uid, pid)) as [s0|] eqn:Hsub;
    [repeat split; try done; intros; congruence|].
  repeat case_bool_decide; simpl; try done.
  - repeat split; try done. intros key Hkey. by rewrite lookup_insert_ne.
  - repeat split; try done.
    + intros key Hkey. by rewrite lookup_insert_ne.
    + intros k row Hrow. rewrite lookup_insert_ne; [done|].
      intros <-. destruct H1 as [Hfresh _]. congruence.
Qed.

Lemma update_subscriptions_admin_frame
    (status' : string) (exp : option (option timestamp)) (uid pid : string) (st : Store) :
  let st' := snd (update_subscriptions_admin status' exp uid pid st) in
  users st' = users st ∧ products st' = products st ∧ api_keys st' = api_keys st
  ∧ (∀ key, key ≠ (uid, pid) → subscriptions st' !! key = subscriptions st !! key)
  ∧ (∀ s, subscriptions st !! (uid, pid) = Some s →
       ∃ s', subscriptions st' !! (uid, pid) = Some s'
             ∧ sub_id s' = sub_id s ∧ trial_used s' = trial_used s).
Proof.
  unfold update_subscriptions_admin.
  destruct (status_of_string status') as [s0|]; simpl; [|by eauto 10].
  unfold update_subscriptions_eq_user_product.
  destruct (subscriptions st !! (uid, pid)) as [s|] eqn:Hsub; simpl; [|done].
  repeat split; try done.
  - intros key Hkey. by rewrite lookup_insert_ne.
  - intros s1 [= <-]. rewrite lookup_insert_eq. by eexists.
Qed.

Lemma admin_subscription_store_cases
    (parseInt : js_value → option Z) (st : Store) (user_id product_id status' : string)
    (days : js_value) (now : timestamp) (g : generated) :
  snd (Express.admin_subscription parseInt user_id product_id status' days now g st) = st
  ∨ ∃ exp, snd (Express.admin_subscription parseInt user_id product_id status' days now g st)
           = snd (update_subscriptions_admin status' exp user_id product_id
                    (ensure_subscription user_id product_id g st)).
Proof.
  unfold Express.admin_subscription, Express.route, Express.admin_subscription_handler.
  destruct (String.eqb status' "premium" && js_truthy days).
  - destruct (parseInt days) as [n|]; [|by left].
    destruct (setDate_plus now n) as [t|]; [|by left].
    right. exists (Some (Some t)). simpl.
    by destruct (update_subscriptions_admin _ _ _ _ _) as [[?|] ?].
  - destruct (String.eqb status' "free").
    + right. exists (Some None). simpl.
      by destruct (update_subscriptions_admin _ _ _ _ _) as [[?|] ?].
    + right. exists None. simpl.
      by destruct (update_subscriptions_admin _ _ _ _ _) as [[?|] ?].
Qed.

(** Whatever the request, the admin subscription route touches one
    subscription only: [users] and [products] are left as they were, every
    subscription of another (user, product) pair is left as it was, the
    addressed subscription keeps its id and its [trial_used] flag, and every
    key row that existed is left as it was. *)
Theorem admin_subscription_frame
    (parseInt : js_value → option Z) (st : Store) (user_id product_id status' : string)
    (days : js_value) (now : timestamp) (g : generated) :
  let st' := snd (Express.admin_subscription parseInt user_id product_id status'
                    days now g st) in
  users st' = users st ∧ products st' = products st
  ∧ (∀ key, key ≠ (user_id, product_id) →
       subscriptions st' !! key = subscriptions st !! key)
  ∧ (∀ s, subscriptions st !! (user_id, product_id) = Some s →
       ∃ s', subscriptions st' !! (user_id, product_id) = Some s'
             ∧ sub_id s' = sub_id s ∧ trial_used s' = trial_used s)
  ∧ (∀ k row, api_keys st !! k = Some row → api_keys st' !! k = Some row).
Proof.
  intros st'. unfold st'.
  destruct (admin_subscription_store_cases parseInt st user_id product_id status'
              days now g) as [-> | [exp ->]].
  - repeat split; try done. intros s Hs. by exists s.
  - destruct (ensure_subscription_frame user_id product_id g st)
      as (Hu & Hp & Hother & Hsame & Hkeys).
    destruct (update_subscriptions_admin_frame status' exp user_id product_id
                (ensure_subscription user_id product_id g st))
      as (Hu' & Hp' & Hk' & Hother' & Hsame').
    split; [congruence|]. split; [congruence|].
    split; [|split].
    + intros key Hkey. rewrite Hother' by done. by apply Hother.
    + intros s Hs. by apply Hsame', Hsame.
    + intros k row Hrow. rewrite Hk'. by apply Hkeys.
Qed.

Lemma admin_subscription_frame_witness :
  let st := sample_store true true None trial (Some 500) true in
  let st' := snd (Express.admin_subscription parseInt_sample "u1" "p1" "free"
                    js_undefined 1000 sample_generated st) in
  ∃ s', subscriptions st' !! ("u1", "p1") = Some s'
        ∧ sub_id s' = "s1" ∧ trial_used s' = true.
Proof.
  intros st st'.
  destruct (admin_subscription_frame parseInt_sample st "u1" "p1" "free" js_undefined
              1000 sample_generated) as (_ & _ & _ & Hsame & _).
  apply (Hsame {| sub_id := "s1"; status := trial; expires_at := Some 500;
                  trial_used := true |}).
  reflexivity.
Defined.

(** ** The sweep [revert_expired_subscriptions] *)

Lemma lookup_revert_expired (now : timestamp) (st : Store) (key : string * string) :
  subscriptions (snd (revert_expired_subscriptions now st)) !! key
  = (λ row, if expired now row
            then apply_sub_update {| set_status := Some free; set_expires_at := Some None;
                                     set_trial_used := None |} row
            else row) <$> subscriptions st !! key.
Proof. simpl. by rewrite lookup_fmap. Qed.

Lemma revert_expired_count_zero (now : timestamp) (st : Store) :
  fst (revert_expired_subscriptions now st) = 0%nat
  ↔ ∀ key row, subscriptions st !! key = Some row → expired now row = false.
Proof.
  simpl. rewrite map_size_empty_iff, map_empty_filter. unfold map_Forall. simpl.
  split; intros H key row Hrow; specialize (H key row Hrow).
  - by destruct (expired now row).
  - by rewrite H.
Qed.



(** The sweep reports 0 updated rows exactly when it leaves the store as it
    was; in any case it touches the [subscriptions] table only, drops and adds
    no row, and changes of a row only [status] and [expires_at]. *)
Theorem revert_expired_subscriptions_frame (now : timestamp) (st : Store) :
  let st' := snd (revert_expired_subscriptions now st) in
  (fst (revert_expired_subscriptions now st) = 0%nat ↔ st' = st)
  ∧ users st' = users st ∧ products st' = products st ∧ api_keys st' = api_keys st
  ∧ (∀ key, match subscriptions st !! key, subscriptions st' !! key with
            | Some row, Some row' =>
                sub_id row' = sub_id row ∧ trial_used row' = trial_used row
            | None, None => True
            | _, _ => False
            end).
Proof.
  intros st'. split; [|repeat split].
  - rewrite revert_expired_count_zero. split.
    + intros Hnone. apply store_eq; try done. apply map_eq. intros key.
      unfold st'. rewrite lookup_revert_expired.
      destruct (subscriptions st !! key) as [row|] eqn:Hrow; simpl; [|done].
      by rewrite (Hnone key row Hrow).
    + intros Hsame key row Hrow.
      assert (subscriptions st' !! key = Some row) as Hrow' by (by rewrite Hsame).
      unfold st' in Hrow'. rewrite lookup_revert_expired, Hrow in Hrow'. simpl in Hrow'.
      destruct (expired now row) eqn:Hexp; [|done].
      injection Hrow' as Heq. apply (f_equal status) in Heq. simpl in Heq.
      unfold expired in Hexp. rewrite <- Heq in Hexp. done.
  - intros key. unfold st'. rewrite lookup_revert_expired.
    destruct (subscriptions st !! key) as [row|]; simpl; [|done].
    by destruct (expired now row).
Qed.

Lemma select_after_revert (now : timestamp) (st : Store) (k : string) :
  select_api_key (snd (revert_expired_subscriptions now st)) k
  = (λ keyData,
       {| kd_id := kd_id keyData; kd_device_id := kd_device_id keyData;
          kd_users := kd_users keyData; kd_products := kd_products keyData;
          kd_subscriptions :=
            match sv_status (kd_subscriptions keyData),
                  sv_expires_at (kd_subscriptions keyData) with
            | (trial | premium), Some e =>
                if e <? now
                then {| sv_status := free; sv_expires_at := None;
                        sv_trial_used := sv_trial_used (kd_subscriptions keyData) |}
                else kd_subscriptions keyData
            | _, _ => kd_subscriptions keyData
            end |}) <$> select_api_key st k.
Proof.
  unfold select_api_key. cbn [snd revert_expired_subscriptions users products api_keys].
  destruct (api_keys st !! k) as [row|]; [|done].
  destruct (users st !! ak_user_id row) as [u|]; [|done].
  destruct (products st !! ak_product_id row) as [p|]; [|done].
  pose proof (lookup_revert_expired now st (ak_user_id row, ak_product_id row)) as Hlk.
  cbn [snd revert_expired_subscriptions subscriptions] in Hlk |- *. rewrite Hlk.
  destruct (subscriptions st !! (ak_user_id row, ak_product_id row)) as [[id s exp used]|];
    [|done].
  simpl. unfold expired. simpl.
  destruct s, exp as [e|]; simpl; try done; by destruct (e <? now).
Qed.

(** The sweep and the lazy check of verify agree.  For a key whose product
    offers no trial or whose trial is used, a verify answers the same after
    the sweep has run at that clock reading as it answers without the sweep:
    an expired subscription is reported free either way. *)
Theorem verify_after_sweep
    (st : Store) (k d : string) (now : timestamp) :
  k ≠ "" → d ≠ "" →
  (∀ keyData, select_api_key st k = Some keyData →
     trial_enabled (kd_products keyData) = false
     ∨ sv_trial_used (kd_subscriptions keyData) = true) →
  fst (Express.verify (Some k) (Some d) now (snd (revert_expired_subscriptions now st)))
  = fst (Express.verify (Some k) (Some d) now st).
Proof.
  intros Hk Hd Hno.
  pose proof (select_after_revert now st k) as Hsel.
  set (st' := snd (revert_expired_subscriptions now st)) in *. clearbody st'.
  unfold Express.verify, Express.route, Express.verify_handler, subscription_id.
  rewrite (truthy_Some k Hk), (truthy_Some d Hd). simpl. rewrite Hsel.
  destruct (select_api_key st k) as [[id dev u p [s exp used]]|]; [|reflexivity].
  specialize (Hno _ eq_refl). simpl in Hno. simpl.
  destruct (is_active p); [|reflexivity]. simpl.
  destruct Hno as [-> | ->];
    destruct (truthy dev), (bool_decide (dev = Some d)); simpl; try done;
    destruct s, exp as [e|]; simpl; rewrite ?andb_false_r; simpl; try done;
    destruct (e <? now) eqn:He; simpl; rewrite ?He, ?andb_false_r; simpl; try done.
Qed.

Lemma verify_after_sweep_witness :
  let st := sample_store true true (Some "D1") trial (Some 500) true in
  fst (Express.verify (Some "sk_1") (Some "D1") 1000
         (snd (revert_expired_subscriptions 1000 st)))
  = fst (Express.verify (Some "sk_1") (Some "D1") 1000 st).
Proof.
  intros st. apply (verify_after_sweep st "sk_1" "D1" 1000); [done | done |].
  intros keyData Hsel. vm_compute in Hsel. injection Hsel as <-. right. reflexivity.
Defined.

(** ** [ensure_subscription] and key generation *)

(** [ensure_subscription] changes a store at most once: when it has changed
    the store, the subscription of the pair exists, and any further call for
    the pair, whatever values the database generates, changes nothing.  A
    repeated call with the same generated values never changes anything. *)
Theorem ensure_subscription_once (uid pid : string) (g g' : generated) (st : Store) :
  let st' := ensure_subscription uid pid g st in
  (st' ≠ st →
   is_Some (subscriptions st' !! (uid, pid)) ∧ ensure_subscription uid pid g' st' = st')
  ∧ ensure_subscription uid pid g st' = st'.
Proof.
  intros st'.
  assert (st' = st ∨ is_Some (subscriptions st' !! (uid, pid))) as Hcases.
  { unfold st', ensure_subscription.
    destruct (subscriptions st !! (uid, pid)) eqn:Hsub; [by left|].
    repeat case_bool_decide; try (by left); right; simpl;
      rewrite lookup_insert_eq; by eexists. }
  assert (∀ g0, is_Some (subscriptions st' !! (uid, pid)) →
                ensure_subscription uid pid g0 st' = st') as Hnoop.
  { intros g0 [s Hs]. unfold ensure_subscription at 1. by rewrite Hs. }
  split.
  - intros Hchanged. destruct Hcases as [Hsame | Hsome]; [done|]. split; [done|].
    by apply Hnoop.
  - destruct Hcases as [Hsame | Hsome]; [|by apply Hnoop].
    rewrite Hsame. exact Hsame.
Qed.

Lemma ensure_subscription_once_witness :
  let st := {| users := {[ "u1" := {| full_name := None; email := "ada@example.org" |} ]};
               products := {[ "p1" := {| name := "Scraper Pro"; is_active := true;
                                         trial_enabled := true |} ]};
               api_keys := ∅; subscriptions := ∅ |} in
  let st' := ensure_subscription "u1" "p1" sample_generated st in
  is_Some (subscriptions st' !! ("u1", "p1"))
  ∧ ensure_subscription "u1" "p1"
      {| gen_sub_id := "s3"; gen_key_id := "k3"; gen_key_value := "sk_3" |} st' = st'.
Proof.
  intros st st'.
  destruct (ensure_subscription_once "u1" "p1" sample_generated
              {| gen_sub_id := "s3"; gen_key_id := "k3"; gen_key_value := "sk_3" |} st)
    as [Hchanged _].
  apply Hchanged. intros Heq. apply (f_equal (λ s, subscriptions s !! ("u1", "p1"))) in Heq.
  vm_compute in Heq. discriminate Heq.
Defined.

(** For a user and a product that exist and have neither a subscription nor
    a key yet, and generated ids and key value that are not in use,
    [ensure_subscription] creates both rows, and the generated key value
    resolves at once: to that user and product, no bound device, and a free
    subscription with no expiry date and the trial unused. *)
Theorem ensure_subscription_creates
    (uid pid : string) (g : generated) (st : Store) (u : users_row) (p : products_row) :
  users st !! uid = Some u → products st !! pid = Some p →
  subscriptions st !! (uid, pid) = None →
  ¬ map_Exists (λ _ row, sub_id row = gen_sub_id g) (subscriptions st) →
  ¬ map_Exists (λ _ row, ak_user_id row = uid ∧ ak_product_id row = pid) (api_keys st) →
  api_keys st !! gen_key_value g = None →
  ¬ map_Exists (λ _ row, ak_id row = gen_key_id g) (api_keys st) →
  select_api_key (ensure_subscription uid pid g st) (gen_key_value g)
  = Some {| kd_id := gen_key_id g; kd_device_id := None; kd_users := u; kd_products := p;
            kd_subscriptions := {| sv_status := free; sv_expires_at := None;
                                   sv_trial_used := false |} |}.
Proof.
  intros Hu Hp Hsub Hsid Hpair Hkv Hkid.
  unfold ensure_subscription. rewrite Hsub.
  rewrite bool_decide_eq_true_2 by (rewrite Hu, Hp; eauto).
  rewrite bool_decide_eq_false_2 by done.
  rewrite bool_decide_eq_true_2 by done.
  unfold select_api_key. simpl.
  rewrite lookup_insert_eq. simpl. by rewrite Hu, Hp, lookup_insert_eq.
Qed.

Lemma ensure_subscription_creates_witness :
  let st := {| users := {[ "u1" := {| full_name := None; email := "ada@example.org" |} ]};
               products := {[ "p1" := {| name := "Scraper Pro"; is_active := true;
                                         trial_enabled := true |} ]};
               api_keys := ∅; subscriptions := ∅ |} in
  select_api_key (ensure_subscription "u1" "p1" sample_generated st) "sk_2"
  = Some {| kd_id := "k2"; kd_device_id := None;
            kd_users := {| full_name := None; email := "ada@example.org" |};
            kd_products := {| name := "Scraper Pro"; is_active := true;
                              trial_enabled := true |};
            kd_subscriptions := {| sv_status := free; sv_expires_at := None;
                                   sv_trial_used := false |} |}.
Proof.
  intros st.
  apply (ensure_subscription_creates "u1" "p1" sample_generated st);
    [reflexivity | reflexivity | reflexivity | | | reflexivity | ];
    intros (key & row & Hrow & _); simpl in Hrow; by rewrite lookup_empty in Hrow.
Defined.



Lemma hex_of_byte_decode (b : Byte.byte) (rest : string) (fuel : nat) :
  decode_hex (S fuel) (String.append (hex_of_byte b) rest)
  = match decode_hex fuel rest with
    | Some bytes => Some (b :: bytes)
    | None => None
    end.
Proof. destruct b; reflexivity. Qed.

Lemma decode_encode_hex (bytes : list Byte.byte) :
  decode_hex (length bytes) (encode_hex bytes) = Some bytes.
Proof.
  induction bytes as [|b bytes IH]; [done|].
  cbn [length encode_hex]. by rewrite hex_of_byte_decode, IH.
Qed.

Lemma encode_hex_length (bytes : list Byte.byte) :
  String.length (encode_hex bytes) = (2 * length bytes)%nat.
Proof.
  induction bytes as [|b bytes IH]; [done|].
  cbn [length encode_hex].
  change (String.length (String.append (hex_of_byte b) (encode_hex bytes)))
    with (S (S (String.length (encode_hex bytes)))).
  rewrite IH. lia.
Qed.

(** A generated key is [sk_] followed by two hexadecimal digits per random
    byte: 67 characters for the 32 bytes that are drawn.  It is never empty,
    so that verify does not reject it as a missing [api_key]. *)
Theorem generate_api_key_shape (random_bytes : list Byte.byte) :
  String.length (generate_api_key random_bytes) = (3 + 2 * length random_bytes)%nat
  ∧ String.prefix "sk_" (generate_api_key random_bytes) = true
  ∧ truthy (Some (generate_api_key random_bytes)) = true
  ∧ (length random_bytes = 32%nat →
     String.length (generate_api_key random_bytes) = 67%nat).
Proof.
  unfold generate_api_key.
  assert (String.length (String.append "sk_" (encode_hex random_bytes))
          = (3 + 2 * length random_bytes)%nat) as Hlen.
  { change (String.length (String.append "sk_" (encode_hex random_bytes)))
      with (S (S (S (String.length (encode_hex random_bytes))))).
    rewrite encode_hex_length. lia. }
  split; [done|].
  split; [by destruct (encode_hex random_bytes)|]. split; [reflexivity|].
  intros H32. rewrite Hlen, H32. reflexivity.
Qed.

Lemma generate_api_key_shape_witness :
  String.length (generate_api_key (replicate 32 Byte.x00)) = 67%nat.
Proof.
  destruct (generate_api_key_shape (replicate 32 Byte.x00)) as (_ & _ & _ & H67).
  apply H67. reflexivity.
Defined.

(** The hexadecimal text spells the random bytes back, so different draws
    give different keys. *)
Theorem generate_api_key_injective (bytes1 bytes2 : list Byte.byte) :
  decode_hex (length bytes1) (encode_hex bytes1) = Some bytes1
  ∧ (generate_api_key bytes1 = generate_api_key bytes2 → bytes1 = bytes2).
Proof.
  split; [apply decode_encode_hex|].
  unfold generate_api_key. intros Heq.
  assert (encode_hex bytes1 = encode_hex bytes2) as Hhex by (by injection Heq).
  assert (length bytes1 = length bytes2) as Hlen.
  { apply (f_equal String.length) in Hhex. rewrite !encode_hex_length in Hhex. lia. }
  pose proof (decode_encode_hex bytes1) as H1.
  pose proof (decode_encode_hex bytes2) as H2.
  rewrite Hhex, Hlen, H2 in H1. by injection H1.
Qed.

Lemma generate_api_key_injective_witness :
  decode_hex 2 (encode_hex [Byte.x0a; Byte.xff]) = Some [Byte.x0a; Byte.xff]
  ∧ [Byte.x0a; Byte.xff] = [Byte.x0a; Byte.xff].
Proof.
  destruct (generate_api_key_injective [Byte.x0a; Byte.xff] [Byte.x0a; Byte.xff])
    as [Hdecode Hinj].
  split; [exact Hdecode | apply Hinj; reflexivity].
Defined.

(** ** The admin guard and the other admin routes *)

Lemma substring_all (s : string) : String.substring 0 (String.length s) s = s.
Proof. induction s as [|c s IH]; [done|]. simpl. by rewrite IH. Qed.

Lemma replace_first_bearer (token : string) :
  ExpressAdmin.replace_first "Bearer " "" (String.append "Bearer " token) = token.
Proof.
  unfold ExpressAdmin.replace_first.
  assert (String.index 0 "Bearer " (String.append "Bearer " token) = Some 0%nat) as ->
    by (by destruct token).
  change (String.append "" (String.substring 0 (String.length token - 0) token) = token).
  rewrite Nat.sub_0_r. apply substring_all.
Qed.

(** [requireAdmin] lets a request through only for an administrator: when it
    calls [next()], the header was present, the token left after removing
    [Bearer ] is not empty and [getUser] names a user for it, and that user
    has [is_admin] true.  Conversely a header [Bearer <token>] whose token
    belongs to an administrator is let through, and a request with no header,
    or with an empty one, is answered 401 [No token provided] without asking
    [getUser]. *)
Theorem requireAdmin_admits_admins_only
    (getUser : string → option string) (is_admin : gmap string bool) :
  (∀ authorization user,
     ExpressAdmin.requireAdmin getUser is_admin authorization = ExpressAdmin.next user →
     is_admin !! user = Some true
     ∧ ∃ header, authorization = Some header
                 ∧ ExpressAdmin.replace_first "Bearer " "" header ≠ ""
                 ∧ getUser (ExpressAdmin.replace_first "Bearer " "" header) = Some user)
  ∧ (∀ token user,
       token ≠ "" → getUser token = Some user → is_admin !! user = Some true →
       ExpressAdmin.requireAdmin getUser is_admin (Some (String.append "Bearer " token))
       = ExpressAdmin.next user)
  ∧ (∀ authorization,
       authorization = None ∨ authorization = Some "" →
       ExpressAdmin.requireAdmin getUser is_admin authorization
       = ExpressAdmin.rejected {| http_status := 401;
                                  body := [("error", JString "No token provided")] |}).
Proof.
  split; [|split].
  - intros authorization user. unfold ExpressAdmin.requireAdmin.
    destruct authorization as [header|]; simpl; [|done].
    destruct (String.eqb (ExpressAdmin.replace_first "Bearer " "" header) "") eqn:Hempty;
      simpl; [done|].
    destruct (getUser (ExpressAdmin.replace_first "Bearer " "" header)) as [u|] eqn:Hget;
      [|done].
    destruct (is_admin !! u) as [[|]|] eqn:Hadmin; try done.
    intros [= <-]. split; [done|]. exists header. split; [done|]. split; [|done].
    by apply String.eqb_neq.
  - intros token user Htoken Hget Hadmin. unfold ExpressAdmin.requireAdmin.
    cbn [fmap option_fmap option_map]. rewrite replace_first_bearer.
    rewrite (truthy_Some token Htoken). simpl. by rewrite Hget, Hadmin.
  - by intros authorization [-> | ->].
Qed.

Lemma requireAdmin_admits_admins_only_witness :
  ExpressAdmin.requireAdmin (λ token, if String.eqb token "t1" then Some "u1" else None)
    {[ "u1" := true ]} (Some "Bearer t1")
  = ExpressAdmin.next "u1".
Proof.
  destruct (requireAdmin_admits_admins_only
              (λ token, if String.eqb token "t1" then Some "u1" else None)
              {[ "u1" := true ]}) as (_ & Hadmit & _).
  apply (Hadmit "t1" "u1"); [done | reflexivity | reflexivity].
Defined.

(** A route behind [requireAdmin] writes for administrators only: if the
    store after the request differs from the store before it, the request
    carried the token of a user whose [is_admin] is true.  A rejected request
    gets the reply of the guard and leaves the store as it was. *)
Theorem guarded_write_needs_admin
    {R : Type} (getUser : string → option string) (is_admin : gmap string bool)
    (authorization : option string) (route : Store → R * Store) (st : Store) :
  (snd (ExpressAdmin.guarded getUser is_admin authorization route st) ≠ st →
   ∃ user, ExpressAdmin.requireAdmin getUser is_admin authorization
           = ExpressAdmin.next user
           ∧ is_admin !! user = Some true)
  ∧ (∀ r, ExpressAdmin.requireAdmin getUser is_admin authorization
          = ExpressAdmin.rejected r →
          ExpressAdmin.guarded getUser is_admin authorization route st = (inl r, st)).
Proof.
  unfold ExpressAdmin.guarded. split.
  - destruct (ExpressAdmin.requireAdmin getUser is_admin authorization) as [user|r] eqn:Hguard;
      [|done].
    intros _. exists user. split; [done|].
    unfold ExpressAdmin.requireAdmin in Hguard.
    destruct (negb _); [done|].
    destruct (getUser _) as [u|]; [|done].
    destruct (is_admin !! u) as [[|]|] eqn:Hadmin; try done.
    by injection Hguard as <-.
  - by intros r ->.
Qed.

Lemma guarded_write_needs_admin_witness :
  let st := sample_store true true None free None false in
  ExpressAdmin.guarded (λ token, if String.eqb token "t1" then Some "u1" else None)
    {[ "u1" := false ]} (Some "Bearer t1")
    (Express.admin_subscription parseInt_sample "u1" "p1" "premium" (js_number 30) 1000
       sample_generated) st
  = (inl {| http_status := 403; body := [("error", JString "Admin access required")] |}, st).
Proof.
  intros st.
  destruct (guarded_write_needs_admin
              (λ token, if String.eqb token "t1" then Some "u1" else None)
              {[ "u1" := false ]} (Some "Bearer t1")
              (Express.admin_subscription parseInt_sample "u1" "p1" "premium"
                 (js_number 30) 1000 sample_generated) st) as [_ Hrejected].
  apply Hrejected. reflexivity.
Defined.

Lemma filter_user_product_singleton (st : Store) (k : string) (row : api_keys_row) :
  api_keys st !! k = Some row →
  (∀ k' row', api_keys st !! k' = Some row' →
     ak_user_id row' = ak_user_id row → ak_product_id row' = ak_product_id row → k' = k) →
  filter (λ kv, ak_user_id kv.2 = ak_user_id row ∧ ak_product_id kv.2 = ak_product_id row)
    (api_keys st) = {[ k := row ]}.
Proof.
  intros Hrow Hunique. apply map_eq. intros k'.
  destruct (decide (k' = k)) as [->|Hne].
  - rewrite lookup_singleton_eq. by apply map_lookup_filter_Some.
  - rewrite lookup_singleton_ne by done.
    apply map_lookup_filter_None. right. intros row' Hrow' [Hu Hp]. simpl in *.
    by apply Hne, (Hunique k' row').
Qed.

(** The admin release and the public release do the same to the store.  When
    the key [k] is the only key of its (user, product) pair, as
    [UNIQUE(user_id, product_id)] demands, releasing the pair through the
    admin route succeeds and leaves exactly the store that releasing [k]
    through [/release-device] leaves: the key is unbound and nothing else
    changes. *)
Theorem admin_release_device_as_public (st : Store) (k : string) (row : api_keys_row) :
  k ≠ "" →
  api_keys st !! k = Some row →
  (∀ k' row', api_keys st !! k' = Some row' →
     ak_user_id row' = ak_user_id row → ak_product_id row' = ak_product_id row → k' = k) →
  ExpressAdmin.release_device (ak_user_id row) (ak_product_id row) st
  = (ExpressAdmin.sent [("success", JBool true);
                        ("message", JString "Device binding released")],
     snd (Express.release_device (Some k) st))
  ∧ device_id <$> api_keys (snd (Express.release_device (Some k) st)) !! k = Some None.
Proof.
  intros Hk Hrow Hunique.
  unfold ExpressAdmin.release_device, update_api_keys_eq_user_product.
  rewrite (filter_user_product_singleton st k row Hrow Hunique), map_to_list_singleton.
  unfold Express.release_device, Express.route, Express.release_device_handler.
  rewrite (truthy_Some k Hk). simpl. unfold update_api_keys_eq_key_value.
  rewrite Hrow. simpl. split; [done|]. by rewrite lookup_insert_eq.
Qed.

Lemma admin_release_device_as_public_witness :
  let st := sample_store true true (Some "D1") free None false in
  ExpressAdmin.release_device "u1" "p1" st
  = (ExpressAdmin.sent [("success", JBool true);
                        ("message", JString "Device binding released")],
     snd (Express.release_device (Some "sk_1") st))
  ∧ device_id <$> api_keys (snd (Express.release_device (Some "sk_1") st)) !! "sk_1"
    = Some None.
Proof.
  intros st.
  apply (admin_release_device_as_public st "sk_1"
           {| ak_id := "k1"; ak_user_id := "u1"; ak_product_id := "p1";
              device_id := Some "D1" |}); [done | reflexivity |].
  intros k' row' Hrow' _ _. simpl in Hrow'.
  by apply lookup_singleton_Some in Hrow' as [<- _].
Defined.

(** When the admin release fails it has written nothing, and it fails
    whenever the (user, product) pair has no key: the reply is then status
    500, where the public route answers 404 for an unknown key. *)
Theorem admin_release_device_error (st : Store) (user_id product_id : string) :
  (fst (ExpressAdmin.release_device user_id product_id st) = ExpressAdmin.error_500 →
   snd (ExpressAdmin.release_device user_id product_id st) = st)
  ∧ (¬ map_Exists (λ _ row, ak_user_id row = user_id ∧ ak_product_id row = product_id)
         (api_keys st) →
     ExpressAdmin.release_device user_id product_id st = (ExpressAdmin.error_500, st)).
Proof.
  unfold ExpressAdmin.release_device, update_api_keys_eq_user_product. split.
  - destruct (map_to_list _) as [|[k row] [|? ?]]; done.
  - intros Hnone.
    assert (filter (λ kv, ak_user_id kv.2 = user_id ∧ ak_product_id kv.2 = product_id)
              (api_keys st) = ∅) as ->.
    { apply map_empty_filter. intros k row Hrow Hmatch. apply Hnone.
      by exists k, row. }
    by rewrite map_to_list_empty.
Qed.

Lemma admin_release_device_error_witness :
  let st := sample_store true true (Some "D1") free None false in
  ExpressAdmin.release_device "u1" "p9" st = (ExpressAdmin.error_500, st).
Proof.
  intros st.
  destruct (admin_release_device_error st "u1" "p9") as [_ Hnone].
  apply Hnone. intros (k & row & Hrow & _ & Hp). simpl in Hrow.
  apply lookup_singleton_Some in Hrow as [_ <-]. discriminate Hp.
Defined.


